(** * Dyce contract decision engine: the two rule sets of the repository

    The repository holds two Streamlit scripts, [Credit17.py] and
    [credit4.py].  Each reads its inputs from widgets into module-level
    names and decides with a function [run_decision] and a scan over an
    approval matrix.  The scripts are embedded below as [Module Credit17]
    and [Module Credit4]; widget values become the fields of a record
    [Inputs], the spreadsheet of approval tiers becomes a list of rows.

    Numbers.  Integer widgets ([number_input] with integer bounds) are [Z].
    Float widgets and spreadsheet amounts are rationals [Q]: the decision
    code only compares them, and divides once (the exposure); the model
    computes that quotient exactly, where Python rounds it to a double.
    Division by a zero term raises [ZeroDivisionError] in Python and is
    an explicit failure here. *)

From Stdlib Require Import ZArith QArith Bool List Ascii String DecimalString Lia Lqa.
Import ListNotations.

#[local] Open Scope string_scope.
#[local] Open Scope list_scope.
#[local] Open Scope Z_scope.

(** ** Python values shared by both scripts *)

(** A call either returns or raises [ZeroDivisionError] (the only
    exception the decision code can raise on well-typed widget values). *)
Inductive py (A : Type) : Type :=
| Return (a : A)
| ZeroDivisionError.

Arguments Return {A} a.
Arguments ZeroDivisionError {A}.

Definition bind {A B : Type} (m : py A) (k : A -> py B) : py B :=
  match m with
  | Return a => k a
  | ZeroDivisionError => ZeroDivisionError
  end.

Notation "'let*' x ':=' m 'in' k" := (bind m (fun x => k))
  (at level 10, x name, m at level 100, k at level 200).

(** [x / n] for a float [x] and an int [n]. *)
Definition true_div (x : Q) (n : Z) : py Q :=
  if n =? 0 then ZeroDivisionError else Return (x / inject_Z n)%Q.

(** [x < y] and [x <= y] on numbers that may be floats. *)
Definition Qleb (x y : Q) : bool := Qle_bool x y.
Definition Qltb (x y : Q) : bool := negb (Qle_bool y x).

(** [s == t] and [s != t] on strings. *)
Definition str_eq (s t : string) : bool := String.eqb s t.
Definition str_ne (s t : string) : bool := negb (String.eqb s t).

(** One row of the approval matrix.  [Credit17.py] reads the columns
    ['Max Sites'], ['Max Spend £'], ['Max Volume kWh'], ['Role'];
    [credit4.py] reads ['Max_Sites'], ['Max_Spend'], ['Max_Annual_kWh'],
    ['Approver']. *)
Record Tier : Type := {
  max_sites : Z;
  max_spend : Q;
  max_volume : Q;
  role : string
}.

(** The test both scripts apply to a row:
    [sites <= row.max_sites and spend <= row.max_spend and volume <= row.max_volume]. *)
Definition tier_covers (sites : Z) (spend volume : Q) (row : Tier) : bool :=
  (sites <=? max_sites row) && Qleb spend (max_spend row) && Qleb volume (max_volume row).

(** The two locals every [run_decision] mutates: the verdict string and
    the list of reasons ([reasons.append] adds at the end). *)
Record Locals : Type := {
  decision : string;
  reasons : list string
}.

Definition append (msg : string) (s : Locals) : Locals :=
  {| decision := decision s; reasons := reasons s ++ [msg] |}.

Definition set_decision (d : string) (s : Locals) : Locals :=
  {| decision := d; reasons := reasons s |}.

(** [if c: body] on the locals. *)
Definition when (c : bool) (body : Locals -> Locals) (s : Locals) : Locals :=
  if c then body s else s.

(** ** Credit17.py *)

Module Credit17.

Record Inputs : Type := {
  creditsafe_score : Z;
  recommended_limit : Z;
  years_trading : Z;
  smet_compatible : string;
  has_ccjs : string;
  payment_terms : string;
  contract_value : Q;
  annual_volume : Q;
  contract_term : Z;
  number_of_sites : Z;
  unit_margin : Q;
  uplift_standing : Q;
  uplift_unit : Q;
  sic_risk : string
}.

(** [get_required_approver(sites, spend, volume)]: the first row of
    [limits_df] that covers the three values, else the fallback. *)
Fixpoint get_required_approver (limits_df : list Tier)
  (sites : Z) (spend volume : Q) : string :=
  match limits_df with
  | [] => "Managing Director"
  | row :: rest =>
      if tier_covers sites spend volume row then role row
      else get_required_approver rest sites spend volume
  end.

(** [three_month_exposure = contract_value / contract_term / 4] *)
Definition three_month_exposure (i : Inputs) : py Q :=
  let* q := true_div (contract_value i) (contract_term i) in
  Return (q / 4)%Q.

Definition decline (msg : string) (s : Locals) : Locals :=
  append msg (set_decision "Declined" s).

(** Lines 112-120: the three decline checks. *)
Definition decline_checks (i : Inputs) (exposure : Q) (s : Locals) : Locals :=
  let s := when ((creditsafe_score i <? 30) && str_eq (smet_compatible i) "No")
             (decline "Declined: Credit score below 30 and meter not SMET-compatible.") s in
  let s := when (str_eq (has_ccjs i) "Yes")
             (decline "Declined: CCJs/defaults present.") s in
  when (Qltb (inject_Z (recommended_limit i)) exposure)
    (decline "Declined: 3-month exposure exceeds recommended limit.") s.

(** Lines 122-123: the low score with a compatible meter. *)
Definition yu_energy_note (i : Inputs) (s : Locals) : Locals :=
  when ((creditsafe_score i <? 30) && str_eq (smet_compatible i) "Yes")
    (append "Customer is only eligible with Yu Energy due to SMET compatibility and low score.") s.

(** Lines 126-139: the checks inside [if decision != "Declined"]. *)
Definition referral_checks (i : Inputs) (s : Locals) : Locals :=
  let s := when (creditsafe_score i <? 60)
             (append "Referral: Low credit score.") s in
  let s := when (str_eq (sic_risk i) "High" || str_eq (sic_risk i) "Very High")
             (append "Referral: High sector risk.") s in
  let s := when (str_ne (payment_terms i) "7 Days Direct Debit")
             (append "Referral: Non-standard payment terms.") s in
  let s := when (Qltb (unit_margin i) 0.5)
             (append "Referral: Unit margin below minimum.") s in
  let s := when (Qltb 5.0 (uplift_standing i))
             (append "Referral: Standing uplift too high.") s in
  let s := when (Qltb 1.0 (uplift_unit i))
             (append "Referral: Unit rate uplift too high.") s in
  when (years_trading i <? 1)
    (append "Referral: Insufficient trading history.") s.

(** [run_decision()] returns [(decision, approver, reasons)]; the approver
    is [None] for a declined application. *)
Definition run_decision (limits_df : list Tier) (i : Inputs)
  : py (string * option string * list string) :=
  let s := {| decision := "Approved"; reasons := [] |} in
  let* three_month_exposure := three_month_exposure i in
  let s := decline_checks i three_month_exposure s in
  let s := yu_energy_note i s in
  let '(s, approver) :=
    if str_ne (decision s) "Declined" then
      (referral_checks i s,
       Some (get_required_approver limits_df
               (number_of_sites i) (contract_value i) (annual_volume i)))
    else (s, None) in
  Return (decision s,
          (if str_ne (decision s) "Declined" then approver else None),
          reasons s).

End Credit17.

(** ** credit4.py *)

Module Credit4.

(** The sidebar configuration and the form. *)
Record Inputs : Type := {
  approve_threshold : Z;
  refer_threshold : Z;
  min_unit_margin : Q;
  max_days_to_pay : Z;
  business_type : string;
  years_trading : Z;
  credit_score : Z;
  smet_compatible : string;
  payment_terms : string;
  number_of_sites : Z;
  annual_volume : Q;
  contract_value : Q;
  contract_term : Z;
  unit_margin : Q;
  sic_risk : string
}.

(** What [run_decision()] returns: [(recommendation, approver, reasons,
    exposure_estimate, exposure_passed, timestamp)]. *)
Record Result : Type := {
  recommendation : string;
  approver : option string;
  result_reasons : list string;
  exposure_estimate : Q;
  exposure_passed : bool;
  timestamp : string
}.

Definition recommend (d msg : string) (s : Locals) : Locals :=
  append msg (set_decision d s).

(** Lines 87-98: the credit score, an [if] / [elif]. *)
Definition credit_checks (i : Inputs) (s : Locals) : Locals :=
  if credit_score i <? refer_threshold i then
    if (credit_score i <? 30) && str_eq (smet_compatible i) "Yes" then
      recommend "Approved with Yu Energy Only"
        "Credit Score <30: Only Yu Energy permitted due to SMET compatibility" s
    else
      recommend "Declined" "Credit Score below minimum threshold" s
  else if (refer_threshold i <=? credit_score i) && (credit_score i <? approve_threshold i) then
    recommend "Refer" "Credit Score requires referral" s
  else s.

(** Lines 100-105: trading history, an [if] / [elif]. *)
Definition trading_history_check (i : Inputs) (s : Locals) : Locals :=
  if str_ne (business_type i) "Limited Company" && (years_trading i <? 1) then
    recommend "Refer" "Insufficient trading history for Sole Trader/Partnership" s
  else if str_eq (business_type i) "Limited Company" && (years_trading i <? 2) then
    recommend "Refer" "Insufficient trading history for Limited Company" s
  else s.

(** Lines 107-117: payment terms, sector risk, margin. *)
Definition referral_checks (i : Inputs) (s : Locals) : Locals :=
  let s := trading_history_check i s in
  let s := when (str_ne (payment_terms i) "14 Days DD" && str_ne (payment_terms i) "14 Days BACS")
             (recommend "Refer" "Payment terms exceed acceptable") s in
  let s := when (str_eq (sic_risk i) "High" || str_eq (sic_risk i) "Very High")
             (recommend "Refer" "SIC Risk too high") s in
  when (Qltb (unit_margin i) (min_unit_margin i))
    (recommend "Refer" "Margin below minimum allowed") s.

(** Lines 124-130: the loop over [matrix_df] with its [break]; [approver]
    is the value the local holds when the loop is entered. *)
Fixpoint matrix_scan (matrix_df : list Tier) (approver : string)
  (sites : Z) (spend volume : Q) : string :=
  match matrix_df with
  | [] => approver
  | row :: rest =>
      if tier_covers sites spend volume row then role row
      else matrix_scan rest approver sites spend volume
  end.

Definition md_notice : string :=
  "Approval by Managing Director required – please email PDF report to md@dyceenergy.com".

(** Lines 132-137: the approver after the scan, and the notice. *)
Definition settle_approver (approver : string) (s : Locals) : option string * Locals :=
  if str_eq (decision s) "Approved with Yu Energy Only" then (Some "Yu Energy Only", s)
  else if str_eq (decision s) "Declined" then (None, s)
  else if str_eq approver "Managing Director" then (Some approver, append md_notice s)
  else (Some approver, s).

(** [run_decision()]; [now] is the clock reading [datetime.now()]
    formatted by [strftime], and [matrix_df] the cached approval matrix. *)
Definition run_decision (now : string) (matrix_df : list Tier) (i : Inputs) : py Result :=
  let s := {| decision := "Approved"; reasons := [] |} in
  let s := credit_checks i s in
  let s := referral_checks i s in
  let* q := true_div (contract_value i) (contract_term i) in
  let exposure_estimate := (q / 4)%Q in
  let exposure_passed := Qleb exposure_estimate (contract_value i) in
  let approver :=
    matrix_scan matrix_df "Managing Director"
      (number_of_sites i) (contract_value i) (annual_volume i) in
  let '(approver, s) := settle_approver approver s in
  Return {| recommendation := decision s;
            approver := approver;
            result_reasons := reasons s;
            exposure_estimate := exposure_estimate;
            exposure_passed := exposure_passed;
            timestamp := now |}.

End Credit4.

(** ** Sample data: an approval matrix and applications *)

Definition tier (sites : Z) (spend volume : Q) (r : string) : Tier :=
  {| max_sites := sites; max_spend := spend; max_volume := volume; role := r |}.

(** Three nested tiers, then a row that repeats the bounds of the first
    under another role, and a row that overlaps the second. *)
Definition sample_matrix : list Tier :=
  [ tier 1 25000 100000 "Sales Manager";
    tier 5 100000 500000 "Sales Director";
    tier 20 500000 2000000 "Finance Director";
    tier 1 25000 100000 "Duplicate Row";
    tier 10 50000 500000 "Overlapping Row" ].

(** ** What a row's ceilings mean *)

(** The three ceilings of [row] dominate the application's values. *)
Definition dominates (row : Tier) (sites : Z) (spend volume : Q) : Prop :=
  sites <= max_sites row /\ (spend <= max_spend row)%Q /\ (volume <= max_volume row)%Q.

(** Seniority as the table's order induces it: the position of the first
    row that covers the values, and the table's length (past every row)
    for the fallback. *)
Fixpoint approver_rank (tiers : list Tier) (sites : Z) (spend volume : Q) : nat :=
  match tiers with
  | [] => O
  | row :: rest =>
      if tier_covers sites spend volume row then O
      else S (approver_rank rest sites spend volume)
  end.

(** The role that stands at a rank. *)
Definition role_at (tiers : list Tier) (k : nat) : string :=
  nth k (map role tiers) "Managing Director".

(** ** The checks as tables

    Each run of [if c: reasons.append(msg)] statements is compared below
    with a table of its (condition, message) pairs: the messages of the
    rows whose condition holds, in the table's order, with repeats. *)

Definition fired (checks : list (bool * string)) : list string :=
  map snd (filter fst checks).

Definition any_fired (checks : list (bool * string)) : bool :=
  existsb fst checks.

(** A run of [if c: act(msg)] statements over the locals. *)
Definition run_checks (act : string -> Locals -> Locals)
  (checks : list (bool * string)) (s : Locals) : Locals :=
  fold_left (fun s cm => when (fst cm) (act (snd cm)) s) checks s.

(** The locals of [credit4.py] after line 117. *)
Definition referred4 (i : Credit4.Inputs) : Locals :=
  Credit4.referral_checks i
    (Credit4.credit_checks i {| decision := "Approved"; reasons := [] |}).

(** The initial locals of both [run_decision] functions. *)
Definition start : Locals := {| decision := "Approved"; reasons := [] |}.

(** [Credit17.py], lines 112-120. *)
Definition declines17 (i : Credit17.Inputs) (exposure : Q) : list (bool * string) :=
  [ ((Credit17.creditsafe_score i <? 30) && str_eq (Credit17.smet_compatible i) "No",
     "Declined: Credit score below 30 and meter not SMET-compatible.");
    (str_eq (Credit17.has_ccjs i) "Yes",
     "Declined: CCJs/defaults present.");
    (Qltb (inject_Z (Credit17.recommended_limit i)) exposure,
     "Declined: 3-month exposure exceeds recommended limit.") ].

(** [Credit17.py], lines 122-123. *)
Definition notes17 (i : Credit17.Inputs) : list (bool * string) :=
  [ ((Credit17.creditsafe_score i <? 30) && str_eq (Credit17.smet_compatible i) "Yes",
     "Customer is only eligible with Yu Energy due to SMET compatibility and low score.") ].

(** [Credit17.py], lines 126-139. *)
Definition referrals17 (i : Credit17.Inputs) : list (bool * string) :=
  [ (Credit17.creditsafe_score i <? 60, "Referral: Low credit score.");
    (str_eq (Credit17.sic_risk i) "High" || str_eq (Credit17.sic_risk i) "Very High",
     "Referral: High sector risk.");
    (str_ne (Credit17.payment_terms i) "7 Days Direct Debit",
     "Referral: Non-standard payment terms.");
    (Qltb (Credit17.unit_margin i) 0.5, "Referral: Unit margin below minimum.");
    (Qltb 5.0 (Credit17.uplift_standing i), "Referral: Standing uplift too high.");
    (Qltb 1.0 (Credit17.uplift_unit i), "Referral: Unit rate uplift too high.");
    (Credit17.years_trading i <? 1, "Referral: Insufficient trading history.") ].

(** [credit4.py], lines 100-117; the two trading-history rows exclude
    each other. *)
Definition referrals4 (i : Credit4.Inputs) : list (bool * string) :=
  [ (str_ne (Credit4.business_type i) "Limited Company" && (Credit4.years_trading i <? 1),
     "Insufficient trading history for Sole Trader/Partnership");
    (str_eq (Credit4.business_type i) "Limited Company" && (Credit4.years_trading i <? 2),
     "Insufficient trading history for Limited Company");
    (str_ne (Credit4.payment_terms i) "14 Days DD"
       && str_ne (Credit4.payment_terms i) "14 Days BACS",
     "Payment terms exceed acceptable");
    (str_eq (Credit4.sic_risk i) "High" || str_eq (Credit4.sic_risk i) "Very High",
     "SIC Risk too high");
    (Qltb (Credit4.unit_margin i) (Credit4.min_unit_margin i),
     "Margin below minimum allowed") ].

(** The role the scan of [credit4.py] finds for an application. *)
Definition scanned4 (matrix_df : list Tier) (i : Credit4.Inputs) : string :=
  Credit4.matrix_scan matrix_df "Managing Director"
    (Credit4.number_of_sites i) (Credit4.contract_value i) (Credit4.annual_volume i).

(** The role [get_required_approver] finds for an application. *)
Definition resolved17 (limits_df : list Tier) (i : Credit17.Inputs) : string :=
  Credit17.get_required_approver limits_df
    (Credit17.number_of_sites i) (Credit17.contract_value i) (Credit17.annual_volume i).

(** ** Sample applications *)

(** [Credit17.py]: one site, 10000 pounds over two years, 50000 kWh, a
    limit of 5000 pounds, margin 0.8, no broker uplift, five years of
    trading; the remaining widgets are the arguments. *)
Definition application17 (score : Z) (smet ccjs terms risk : string) : Credit17.Inputs :=
  {| Credit17.creditsafe_score := score;
     Credit17.recommended_limit := 5000;
     Credit17.years_trading := 5;
     Credit17.smet_compatible := smet;
     Credit17.has_ccjs := ccjs;
     Credit17.payment_terms := terms;
     Credit17.contract_value := 10000;
     Credit17.annual_volume := 50000;
     Credit17.contract_term := 2;
     Credit17.number_of_sites := 1;
     Credit17.unit_margin := 0.8;
     Credit17.uplift_standing := 0;
     Credit17.uplift_unit := 0;
     Credit17.sic_risk := risk |}.

(** [credit4.py] with the sidebar at its defaults (80, 60, 0.5, 14): a
    limited company trading for five years, one site, 10000 pounds over
    two years, 50000 kWh, margin 0.8. *)
Definition application4 (score : Z) (smet terms risk : string) : Credit4.Inputs :=
  {| Credit4.approve_threshold := 80;
     Credit4.refer_threshold := 60;
     Credit4.min_unit_margin := 0.5;
     Credit4.max_days_to_pay := 14;
     Credit4.business_type := "Limited Company";
     Credit4.years_trading := 5;
     Credit4.credit_score := score;
     Credit4.smet_compatible := smet;
     Credit4.payment_terms := terms;
     Credit4.number_of_sites := 1;
     Credit4.annual_volume := 50000;
     Credit4.contract_value := 10000;
     Credit4.contract_term := 2;
     Credit4.unit_margin := 0.8;
     Credit4.sic_risk := risk |}.

(** The same application with another contract term. *)
Definition with_contract_term (i : Credit4.Inputs) (term : Z) : Credit4.Inputs :=
  {| Credit4.approve_threshold := Credit4.approve_threshold i;
     Credit4.refer_threshold := Credit4.refer_threshold i;
     Credit4.min_unit_margin := Credit4.min_unit_margin i;
     Credit4.max_days_to_pay := Credit4.max_days_to_pay i;
     Credit4.business_type := Credit4.business_type i;
     Credit4.years_trading := Credit4.years_trading i;
     Credit4.credit_score := Credit4.credit_score i;
     Credit4.smet_compatible := Credit4.smet_compatible i;
     Credit4.payment_terms := Credit4.payment_terms i;
     Credit4.number_of_sites := Credit4.number_of_sites i;
     Credit4.annual_volume := Credit4.annual_volume i;
     Credit4.contract_value := Credit4.contract_value i;
     Credit4.contract_term := term;
     Credit4.unit_margin := Credit4.unit_margin i;
     Credit4.sic_risk := Credit4.sic_risk i |}.

(** The same application with another contract value, term and limit. *)
Definition with_contract17 (i : Credit17.Inputs) (value : Q) (term limit : Z)
  : Credit17.Inputs :=
  {| Credit17.creditsafe_score := Credit17.creditsafe_score i;
     Credit17.recommended_limit := limit;
     Credit17.years_trading := Credit17.years_trading i;
     Credit17.smet_compatible := Credit17.smet_compatible i;
     Credit17.has_ccjs := Credit17.has_ccjs i;
     Credit17.payment_terms := Credit17.payment_terms i;
     Credit17.contract_value := value;
     Credit17.annual_volume := Credit17.annual_volume i;
     Credit17.contract_term := term;
     Credit17.number_of_sites := Credit17.number_of_sites i;
     Credit17.unit_margin := Credit17.unit_margin i;
     Credit17.uplift_standing := Credit17.uplift_standing i;
     Credit17.uplift_unit := Credit17.uplift_unit i;
     Credit17.sic_risk := Credit17.sic_risk i |}.

(** No condition of either script triggered. *)
Definition clean17 : Credit17.Inputs :=
  application17 85 "Yes" "No" "7 Days Direct Debit" "Low".
Definition clean4 : Credit4.Inputs :=
  application4 85 "Yes" "14 Days DD" "Low".

(** A high-risk sector and nothing else. *)
Definition high_risk17 : Credit17.Inputs :=
  application17 85 "Yes" "No" "7 Days Direct Debit" "High".

(** Score 20 with a compatible meter, nothing else. *)
Definition low_score_smet17 : Credit17.Inputs :=
  application17 20 "Yes" "No" "7 Days Direct Debit" "Low".
Definition low_score_smet4 : Credit4.Inputs :=
  application4 20 "Yes" "14 Days DD" "Low".

(** Score 20 with a compatible meter, paying at 30 days. *)
Definition low_score_smet_late4 : Credit4.Inputs :=
  application4 20 "Yes" "30 Days BACS" "Low".

(** Score 20 with an incompatible meter in a high-risk sector. *)
Definition low_score_no_smet_high_risk4 : Credit4.Inputs :=
  application4 20 "No" "14 Days DD" "High".

(** Score 70, between the two thresholds, nothing else. *)
Definition score_70_clean4 : Credit4.Inputs :=
  application4 70 "Yes" "14 Days DD" "Low".

(** 100000 pounds over two years against a limit of 5000 pounds: an
    exposure of 12500 pounds on an otherwise clean application. *)
Definition over_limit17 : Credit17.Inputs :=
  with_contract17 clean17 100000 2 5000.

(** A high-risk sector and 14-day terms: two referral conditions of
    [Credit17.py]. *)
Definition two_referrals17 : Credit17.Inputs :=
  application17 85 "Yes" "No" "14 Days DD" "High".

(** Score 70, a high-risk sector and 30-day terms: three referral
    conditions of [credit4.py]. *)
Definition three_referrals4 : Credit4.Inputs :=
  application4 70 "Yes" "30 Days BACS" "High".

(** The clean applications with their amounts written as other fractions
    of the same value. *)
Definition clean17_unreduced : Credit17.Inputs :=
  {| Credit17.creditsafe_score := 85;
     Credit17.recommended_limit := 5000;
     Credit17.years_trading := 5;
     Credit17.smet_compatible := "Yes";
     Credit17.has_ccjs := "No";
     Credit17.payment_terms := "7 Days Direct Debit";
     Credit17.contract_value := 20000 # 2;
     Credit17.annual_volume := 150000 # 3;
     Credit17.contract_term := 2;
     Credit17.number_of_sites := 1;
     Credit17.unit_margin := 4 # 5;
     Credit17.uplift_standing := 0 # 7;
     Credit17.uplift_unit := 0;
     Credit17.sic_risk := "Low" |}.

Definition clean4_unreduced : Credit4.Inputs :=
  {| Credit4.approve_threshold := 80;
     Credit4.refer_threshold := 60;
     Credit4.min_unit_margin := 1 # 2;
     Credit4.max_days_to_pay := 14;
     Credit4.business_type := "Limited Company";
     Credit4.years_trading := 5;
     Credit4.credit_score := 85;
     Credit4.smet_compatible := "Yes";
     Credit4.payment_terms := "14 Days DD";
     Credit4.number_of_sites := 1;
     Credit4.annual_volume := 150000 # 3;
     Credit4.contract_value := 20000 # 2;
     Credit4.contract_term := 2;
     Credit4.unit_margin := 4 # 5;
     Credit4.sic_risk := "Low" |}.

(** ** Identical inputs and identical reference tables

    Strings and integers are identical when equal; amounts are identical
    when they are the same number. *)

Definition same_tier (t u : Tier) : Prop :=
  max_sites t = max_sites u
  /\ (max_spend t == max_spend u)%Q
  /\ (max_volume t == max_volume u)%Q
  /\ role t = role u.

Definition same_table (tiers tiers' : list Tier) : Prop :=
  Forall2 same_tier tiers tiers'.

Definition same_inputs17 (i j : Credit17.Inputs) : Prop :=
  Credit17.creditsafe_score i = Credit17.creditsafe_score j
  /\ Credit17.recommended_limit i = Credit17.recommended_limit j
  /\ Credit17.years_trading i = Credit17.years_trading j
  /\ Credit17.smet_compatible i = Credit17.smet_compatible j
  /\ Credit17.has_ccjs i = Credit17.has_ccjs j
  /\ Credit17.payment_terms i = Credit17.payment_terms j
  /\ (Credit17.contract_value i == Credit17.contract_value j)%Q
  /\ (Credit17.annual_volume i == Credit17.annual_volume j)%Q
  /\ Credit17.contract_term i = Credit17.contract_term j
  /\ Credit17.number_of_sites i = Credit17.number_of_sites j
  /\ (Credit17.unit_margin i == Credit17.unit_margin j)%Q
  /\ (Credit17.uplift_standing i == Credit17.uplift_standing j)%Q
  /\ (Credit17.uplift_unit i == Credit17.uplift_unit j)%Q
  /\ Credit17.sic_risk i = Credit17.sic_risk j.

Definition same_inputs4 (i j : Credit4.Inputs) : Prop :=
  Credit4.approve_threshold i = Credit4.approve_threshold j
  /\ Credit4.refer_threshold i = Credit4.refer_threshold j
  /\ (Credit4.min_unit_margin i == Credit4.min_unit_margin j)%Q
  /\ Credit4.max_days_to_pay i = Credit4.max_days_to_pay j
  /\ Credit4.business_type i = Credit4.business_type j
  /\ Credit4.years_trading i = Credit4.years_trading j
  /\ Credit4.credit_score i = Credit4.credit_score j
  /\ Credit4.smet_compatible i = Credit4.smet_compatible j
  /\ Credit4.payment_terms i = Credit4.payment_terms j
  /\ Credit4.number_of_sites i = Credit4.number_of_sites j
  /\ (Credit4.annual_volume i == Credit4.annual_volume j)%Q
  /\ (Credit4.contract_value i == Credit4.contract_value j)%Q
  /\ Credit4.contract_term i = Credit4.contract_term j
  /\ (Credit4.unit_margin i == Credit4.unit_margin j)%Q
  /\ Credit4.sic_risk i = Credit4.sic_risk j.

(** Two calls of [credit4.py]'s [run_decision] agree on everything but
    the timestamp: both raise, or both return the same verdict, approver,
    reasons in the same order, exposure and exposure flag. *)
Definition same_outcome4 (x y : py Credit4.Result) : Prop :=
  match x, y with
  | Return r, Return r' =>
      Credit4.recommendation r = Credit4.recommendation r'
      /\ Credit4.approver r = Credit4.approver r'
      /\ Credit4.result_reasons r = Credit4.result_reasons r'
      /\ (Credit4.exposure_estimate r == Credit4.exposure_estimate r')%Q
      /\ Credit4.exposure_passed r = Credit4.exposure_passed r'
  | ZeroDivisionError, ZeroDivisionError => True
  | _, _ => False
  end.

(** ** The conditions as propositions *)

(** [Credit17.py]: the seven referral conditions with their messages. *)
Definition referral_conditions17 (i : Credit17.Inputs) : list (Prop * string) :=
  [ (Credit17.creditsafe_score i < 60, "Referral: Low credit score.");
    (Credit17.sic_risk i = "High" \/ Credit17.sic_risk i = "Very High",
     "Referral: High sector risk.");
    (Credit17.payment_terms i <> "7 Days Direct Debit",
     "Referral: Non-standard payment terms.");
    ((Credit17.unit_margin i < 0.5)%Q, "Referral: Unit margin below minimum.");
    ((5.0 < Credit17.uplift_standing i)%Q, "Referral: Standing uplift too high.");
    ((1.0 < Credit17.uplift_unit i)%Q, "Referral: Unit rate uplift too high.");
    (Credit17.years_trading i < 1, "Referral: Insufficient trading history.") ].

(** [credit4.py]: the five conditions of lines 100-117. *)
Definition referral_conditions4 (i : Credit4.Inputs) : list (Prop * string) :=
  [ (Credit4.business_type i <> "Limited Company" /\ Credit4.years_trading i < 1,
     "Insufficient trading history for Sole Trader/Partnership");
    (Credit4.business_type i = "Limited Company" /\ Credit4.years_trading i < 2,
     "Insufficient trading history for Limited Company");
    (Credit4.payment_terms i <> "14 Days DD" /\ Credit4.payment_terms i <> "14 Days BACS",
     "Payment terms exceed acceptable");
    (Credit4.sic_risk i = "High" \/ Credit4.sic_risk i = "Very High",
     "SIC Risk too high");
    ((Credit4.unit_margin i < Credit4.min_unit_margin i)%Q,
     "Margin below minimum allowed") ].

(** [credit4.py], line 96: the score band that refers. *)
Definition referral_band4 (i : Credit4.Inputs) : Prop :=
  Credit4.refer_threshold i <= Credit4.credit_score i < Credit4.approve_threshold i.

(** [credit4.py], lines 87-93: the score declines. *)
Definition score_declines4 (i : Credit4.Inputs) : Prop :=
  Credit4.credit_score i < Credit4.refer_threshold i
  /\ ~ (Credit4.credit_score i < 30 /\ Credit4.smet_compatible i = "Yes").

(** The exposure of an application of [Credit17.py], as a number. *)
Definition exposure17 (i : Credit17.Inputs) : Q :=
  (Credit17.contract_value i / inject_Z (Credit17.contract_term i) / 4)%Q.

(** [Credit17.py]: the three decline conditions. *)
Definition low_score_no_smet17 (i : Credit17.Inputs) : Prop :=
  Credit17.creditsafe_score i < 30 /\ Credit17.smet_compatible i = "No".
Definition adverse_credit17 (i : Credit17.Inputs) : Prop :=
  Credit17.has_ccjs i = "Yes".
Definition over_limit_exposure17 (i : Credit17.Inputs) : Prop :=
  (inject_Z (Credit17.recommended_limit i) < exposure17 i)%Q.

(** A table of conditions read against the table of tests the code
    evaluates: row by row the test is true exactly when the condition
    holds, and the messages agree. *)
Definition reflects (tests : list (bool * string)) (conds : list (Prop * string)) : Prop :=
  Forall2 (fun t c => (fst t = true <-> fst c) /\ snd t = snd c) tests conds.

(** ** The SIC code lookup (both scripts)

    [Credit17.py], lines 86-97, and [credit4.py], lines 68-79, are the same
    statements.  [sic_code] is the text input after [.strip()], [sic_df]
    the table as loaded (its codes cast to strings and stripped), and
    [manual_risk] what the select box holds that the scripts show when
    the code is not in the table. *)

Record SicRow : Type := {
  SIC_Code : string;
  SIC_Description : string;
  Typical_Risk_Rating : string
}.

(** [(sic_description, sic_risk)] once the block has run. *)
Definition sic_lookup (sic_df : list SicRow) (sic_code manual_risk : string)
  : string * string :=
  let sic_description := "Unknown" in
  let sic_risk := "Medium" in
  if str_ne sic_code "" then
    match filter (fun row => str_eq (SIC_Code row) sic_code) sic_df with
    | row :: _ => (SIC_Description row, Typical_Risk_Rating row)
    | [] => (sic_description, manual_risk)
    end
  else (sic_description, sic_risk).

(** An application of [Credit17.py] with the sector risk the lookup
    leaves in [sic_risk]. *)
Definition with_sic_risk17 (i : Credit17.Inputs) (risk : string) : Credit17.Inputs :=
  {| Credit17.creditsafe_score := Credit17.creditsafe_score i;
     Credit17.recommended_limit := Credit17.recommended_limit i;
     Credit17.years_trading := Credit17.years_trading i;
     Credit17.smet_compatible := Credit17.smet_compatible i;
     Credit17.has_ccjs := Credit17.has_ccjs i;
     Credit17.payment_terms := Credit17.payment_terms i;
     Credit17.contract_value := Credit17.contract_value i;
     Credit17.annual_volume := Credit17.annual_volume i;
     Credit17.contract_term := Credit17.contract_term i;
     Credit17.number_of_sites := Credit17.number_of_sites i;
     Credit17.unit_margin := Credit17.unit_margin i;
     Credit17.uplift_standing := Credit17.uplift_standing i;
     Credit17.uplift_unit := Credit17.uplift_unit i;
     Credit17.sic_risk := risk |}.

(** The same application with another answer to the SMET question. *)
Definition with_smet17 (i : Credit17.Inputs) (smet : string) : Credit17.Inputs :=
  {| Credit17.creditsafe_score := Credit17.creditsafe_score i;
     Credit17.recommended_limit := Credit17.recommended_limit i;
     Credit17.years_trading := Credit17.years_trading i;
     Credit17.smet_compatible := smet;
     Credit17.has_ccjs := Credit17.has_ccjs i;
     Credit17.payment_terms := Credit17.payment_terms i;
     Credit17.contract_value := Credit17.contract_value i;
     Credit17.annual_volume := Credit17.annual_volume i;
     Credit17.contract_term := Credit17.contract_term i;
     Credit17.number_of_sites := Credit17.number_of_sites i;
     Credit17.unit_margin := Credit17.unit_margin i;
     Credit17.uplift_standing := Credit17.uplift_standing i;
     Credit17.uplift_unit := Credit17.uplift_unit i;
     Credit17.sic_risk := Credit17.sic_risk i |}.

(** An application of [credit4.py] with another sector risk, another
    answer to the SMET question and another sidebar value for the maximum
    payment terms. *)
Definition with_form4 (i : Credit4.Inputs) (risk smet : string) (days : Z)
  : Credit4.Inputs :=
  {| Credit4.approve_threshold := Credit4.approve_threshold i;
     Credit4.refer_threshold := Credit4.refer_threshold i;
     Credit4.min_unit_margin := Credit4.min_unit_margin i;
     Credit4.max_days_to_pay := days;
     Credit4.business_type := Credit4.business_type i;
     Credit4.years_trading := Credit4.years_trading i;
     Credit4.credit_score := Credit4.credit_score i;
     Credit4.smet_compatible := smet;
     Credit4.payment_terms := Credit4.payment_terms i;
     Credit4.number_of_sites := Credit4.number_of_sites i;
     Credit4.annual_volume := Credit4.annual_volume i;
     Credit4.contract_value := Credit4.contract_value i;
     Credit4.contract_term := Credit4.contract_term i;
     Credit4.unit_margin := Credit4.unit_margin i;
     Credit4.sic_risk := risk |}.

(** A table of sector codes in which one code stands twice. *)
Definition sample_sic : list SicRow :=
  [ {| SIC_Code := "01110"; SIC_Description := "Growing of cereals";
       Typical_Risk_Rating := "Low" |};
    {| SIC_Code := "56101"; SIC_Description := "Licensed restaurants";
       Typical_Risk_Rating := "High" |};
    {| SIC_Code := "56101"; SIC_Description := "Restaurants (second entry)";
       Typical_Risk_Rating := "Medium" |} ].

(** ** Every reason with its condition *)

(** [Credit17.py]: the application is declined. *)
Definition declined17 (i : Credit17.Inputs) : Prop :=
  low_score_no_smet17 i \/ adverse_credit17 i \/ over_limit_exposure17 i.

(** [Credit17.py]: the eleven messages, each with the condition under
    which [run_decision] appends it, in the order of the statements. *)
Definition reason_conditions17 (i : Credit17.Inputs) : list (Prop * string) :=
  [ (low_score_no_smet17 i,
     "Declined: Credit score below 30 and meter not SMET-compatible.");
    (adverse_credit17 i, "Declined: CCJs/defaults present.");
    (over_limit_exposure17 i, "Declined: 3-month exposure exceeds recommended limit.");
    (Credit17.creditsafe_score i < 30 /\ Credit17.smet_compatible i = "Yes",
     "Customer is only eligible with Yu Energy due to SMET compatibility and low score.") ]
  ++ map (fun c => (~ declined17 i /\ fst c, snd c)) (referral_conditions17 i).

(** The tests [Credit17.py] evaluates for them. *)
Definition reason_tests17 (i : Credit17.Inputs) : list (bool * string) :=
  declines17 i (exposure17 i) ++ notes17 i
  ++ map (fun t => (negb (any_fired (declines17 i (exposure17 i))) && fst t, snd t))
       (referrals17 i).

(** The messages of [Credit17.py] in the order of its statements. *)
Definition messages17 : list string :=
  [ "Declined: Credit score below 30 and meter not SMET-compatible.";
    "Declined: CCJs/defaults present.";
    "Declined: 3-month exposure exceeds recommended limit.";
    "Customer is only eligible with Yu Energy due to SMET compatibility and low score.";
    "Referral: Low credit score.";
    "Referral: High sector risk.";
    "Referral: Non-standard payment terms.";
    "Referral: Unit margin below minimum.";
    "Referral: Standing uplift too high.";
    "Referral: Unit rate uplift too high.";
    "Referral: Insufficient trading history." ].

(** [credit4.py]: the score is below 30 and below the referral threshold,
    and the meter is compatible. *)
Definition yu_energy_only4 (i : Credit4.Inputs) : Prop :=
  Credit4.credit_score i < Credit4.refer_threshold i
  /\ Credit4.credit_score i < 30 /\ Credit4.smet_compatible i = "Yes".

(** [credit4.py]: some check of lines 100-117 refers. *)
Definition referred_by_checks4 (i : Credit4.Inputs) : Prop :=
  Exists (fun c => fst c) (referral_conditions4 i).

(** [credit4.py], lines 87-98: the three messages of the score check. *)
Definition score_conditions4 (i : Credit4.Inputs) : list (Prop * string) :=
  [ (yu_energy_only4 i,
     "Credit Score <30: Only Yu Energy permitted due to SMET compatibility");
    (score_declines4 i, "Credit Score below minimum threshold");
    (referral_band4 i, "Credit Score requires referral") ].

Definition score_tests4 (i : Credit4.Inputs) : list (bool * string) :=
  [ ((Credit4.credit_score i <? Credit4.refer_threshold i)
       && ((Credit4.credit_score i <? 30) && str_eq (Credit4.smet_compatible i) "Yes"),
     "Credit Score <30: Only Yu Energy permitted due to SMET compatibility");
    ((Credit4.credit_score i <? Credit4.refer_threshold i)
       && negb ((Credit4.credit_score i <? 30) && str_eq (Credit4.smet_compatible i) "Yes"),
     "Credit Score below minimum threshold");
    (negb (Credit4.credit_score i <? Credit4.refer_threshold i)
       && ((Credit4.refer_threshold i <=? Credit4.credit_score i)
             && (Credit4.credit_score i <? Credit4.approve_threshold i)),
     "Credit Score requires referral") ].

(** [credit4.py], lines 132-137: the notice is appended. *)
Definition notice_test4 (matrix_df : list Tier) (i : Credit4.Inputs) : bool :=
  negb (str_eq (decision (referred4 i)) "Approved with Yu Energy Only")
  && negb (str_eq (decision (referred4 i)) "Declined")
  && str_eq (scanned4 matrix_df i) "Managing Director".

Definition reason_tests4 (matrix_df : list Tier) (i : Credit4.Inputs)
  : list (bool * string) :=
  score_tests4 i ++ referrals4 i ++ [(notice_test4 matrix_df i, Credit4.md_notice)].

(** The messages of [credit4.py] in the order of its statements. *)
Definition messages4 : list string :=
  [ "Credit Score <30: Only Yu Energy permitted due to SMET compatibility";
    "Credit Score below minimum threshold";
    "Credit Score requires referral";
    "Insufficient trading history for Sole Trader/Partnership";
    "Insufficient trading history for Limited Company";
    "Payment terms exceed acceptable";
    "SIC Risk too high";
    "Margin below minimum allowed";
    Credit4.md_notice ].

(** [m in rs] as Python evaluates it. *)
Definition mem (m : string) (rs : list string) : bool :=
  existsb (String.eqb m) rs.

(** ** The result on screen and in the PDF report

    What the scripts do when "Run Decision Engine" is pressed, as the
    calls they make in order: on Streamlit ([st.subheader], [st.markdown],
    [st.write], [st.download_button]) and, inside the export functions, on
    the [FPDF] object.  The report handed to the download button is the
    list of calls that drew it; [header] and [footer], which [FPDF] calls
    by itself on every page, are not among them.  An f-string renders a
    [str] as itself and an [int] in decimal; how it renders a [float] is
    left to [float_str], and [round2_str] renders [round(x, 2)]. *)

Inductive pdf_call : Type :=
| add_page
| set_font (family style : string) (size : Z)
| set_text_color (r g b : Z)
| cell (w h : Z) (txt : string) (ln : bool) (align : string)
| multi_cell (w h : Z) (txt : string)
| ln (h : Z)
| output (dest : string).

Inductive st_call : Type :=
| subheader (body : string)
| markdown (body : string)
| write (body : string)
| download_button (label : string) (data : list pdf_call) (file_name mime : string).

(** A value of a report dictionary. *)
Inductive value : Type :=
| Str (s : string)
| Int (z : Z)
| Float (q : Q).

(** [if approver:] on a value that is [None] or a [str]. *)
Definition truthy (approver : option string) : bool :=
  match approver with
  | Some a => str_ne a ""
  | None => false
  end.







Definition bullet (r : string) : string := String.append "- " r.

Module Credit17Page.

(** The widgets that [run_decision] does not read, and those it does. *)
Record Page : Type := {
  company_name : string;
  sic_code : string;
  sic_description : string;
  inputs : Credit17.Inputs
}.

Section Formatting.

Variable float_str : Q -> string.

(** [f"{v}"] *)
Definition format (v : value) : string :=
  match v with
  | Str s => s
  | Int z => NilZero.string_of_int (Z.to_int z)
  | Float q => float_str q
  end.

(** [export_pdf(data, decision, approver, reasons)], lines 156-183. *)
Definition export_pdf (data : list (string * value)) (decision : string)
  (approver : option string) (reasons : list string) : list pdf_call :=
  [ add_page;
    set_font "Arial" "B" 14;
    set_text_color 15 42 52;
    cell 0 10 "Dyce Credit Decision Report" true "";
    set_font "Arial" "" 12;
    ln 5 ]
  ++ map (fun kv => cell 0 10 (String.append (fst kv) (String.append ": " (format (snd kv))))
                      true "") data
  ++ [ ln 5;
       cell 0 10 (String.append "Decision: " decision) true "" ]
  ++ (if truthy approver
      then [cell 0 10 (String.append "Approver Required: "
                         (match approver with Some a => a | None => "" end)) true ""]
      else [])
  ++ [ ln 5;
       set_font "Arial" "B" 12;
       cell 0 10 "Reasons / Stipulations:" true "";
       set_font "Arial" "" 12 ]
  ++ map (fun r => multi_cell 0 10 (bullet r)) reasons
  ++ [ output "F" ].

(** [result_data], lines 198-208. *)
Definition result_data (p : Page) : list (string * value) :=
  [ ("Company", Str (company_name p));
    ("Creditsafe Score", Int (Credit17.creditsafe_score (inputs p)));
    ("Rec. Limit", Int (Credit17.recommended_limit (inputs p)));
    ("Contract Value", Float (Credit17.contract_value (inputs p)));
    ("Volume", Float (Credit17.annual_volume (inputs p)));
    ("Sites", Int (Credit17.number_of_sites (inputs p)));
    ("SIC", Str (sic_code p));
    ("SIC Description", Str (sic_description p));
    ("SIC Risk", Str (Credit17.sic_risk (inputs p))) ].

(** The body of [if st.button("Run Decision Engine"):], lines 186-211. *)
Definition on_run_button (limits_df : list Tier) (p : Page) : py (list st_call) :=
  let* result := Credit17.run_decision limits_df (inputs p) in
  let '(decision, approver, reasons) := result in
  Return
    ([ subheader "Decision Result";
       markdown (String.append "**Final Decision:** " decision) ]
     ++ (if truthy approver
         then markdown (String.append "**Required Approver:** "
                          (match approver with Some a => a | None => "" end))
              :: (if match approver with
                     | Some a => str_eq a "Managing Director"
                     | None => false
                     end
                  then [markdown "📧 Please email the PDF report to **Tenderapprovals@dyce-energy.co.uk**"]
                  else [])
         else [])
     ++ map (fun r => markdown (bullet r)) reasons
     ++ [ download_button "Download PDF Report"
            (export_pdf (result_data p) decision approver reasons)
            "Credit_Decision_Report.pdf" "application/pdf" ]).

End Formatting.

End Credit17Page.

Module Credit4Page.

Record Page : Type := {
  sic_code : string;
  sic_description : string;
  inputs : Credit4.Inputs
}.

Section Formatting.

Variable float_str : Q -> string.
Variable round2_str : Q -> string.

(** [f"{v}"] *)
Definition format (v : value) : string :=
  match v with
  | Str s => s
  | Int z => NilZero.string_of_int (Z.to_int z)
  | Float q => float_str q
  end.

(** ['Yes' if flag else 'No'] *)
Definition yes_no (flag : bool) : string := if flag then "Yes" else "No".

(** [export_to_pdf(inputs, result)], lines 154-183. *)
Definition export_to_pdf (inputs : list (string * value)) (result : Credit4.Result)
  : list pdf_call :=
  [ add_page;
    set_font "Arial" "B" 14;
    set_text_color 15 42 52;
    cell 0 10 "Dyce Credit Decision Report" true "C";
    ln 10;
    set_font "Arial" "" 12 ]
  ++ map (fun kv => multi_cell 0 8 (String.append (fst kv)
                                      (String.append ": " (format (snd kv))))) inputs
  ++ [ ln 5;
       set_font "Arial" "B" 12;
       cell 0 10 (String.append "Decision: " (Credit4.recommendation result)) true "" ]
  ++ (if truthy (Credit4.approver result)
      then [cell 0 10 (String.append "Approver: "
                         (match Credit4.approver result with Some a => a | None => "" end))
              true ""]
      else [])
  ++ [ cell 0 10 (String.append "Exposure Estimate: £"
                    (round2_str (Credit4.exposure_estimate result))) true "";
       cell 0 10 (String.append "Exposure OK: "
                    (yes_no (Credit4.exposure_passed result))) true "";
       ln 5;
       set_font "Arial" "" 12;
       cell 0 10 "Reasons:" true "" ]
  ++ map (fun reason => multi_cell 0 8 (bullet reason)) (Credit4.result_reasons result)
  ++ [ output "" ].

(** [inputs], lines 187-201. *)
Definition inputs_dict (p : Page) : list (string * value) :=
  [ ("Business Type", Str (Credit4.business_type (inputs p)));
    ("Years Trading", Int (Credit4.years_trading (inputs p)));
    ("Credit Score", Int (Credit4.credit_score (inputs p)));
    ("Meter SMET Compatible", Str (Credit4.smet_compatible (inputs p)));
    ("Payment Terms", Str (Credit4.payment_terms (inputs p)));
    ("Sites", Int (Credit4.number_of_sites (inputs p)));
    ("Annual Volume (kWh)", Float (Credit4.annual_volume (inputs p)));
    ("Contract Value", Float (Credit4.contract_value (inputs p)));
    ("Contract Term", Int (Credit4.contract_term (inputs p)));
    ("Unit Margin", Float (Credit4.unit_margin (inputs p)));
    ("SIC Code", Str (sic_code p));
    ("SIC Description", Str (sic_description p));
    ("SIC Risk", Str (Credit4.sic_risk (inputs p))) ].

(** The body of [if st.button("Run Decision Engine"):], lines 186-217. *)
Definition on_run_button (now : string) (matrix_df : list Tier) (p : Page)
  : py (list st_call) :=
  let* result := Credit4.run_decision now matrix_df (inputs p) in
  Return
    ([ subheader "Decision Result";
       write (String.append "**Decision:** " (Credit4.recommendation result)) ]
     ++ (if truthy (Credit4.approver result)
         then [write (String.append "**Approver:** "
                        (match Credit4.approver result with Some a => a | None => "" end))]
         else [])
     ++ [ write (String.append "**Exposure Estimate:** £"
                   (round2_str (Credit4.exposure_estimate result)));
          write (String.append "**Exposure Acceptable:** "
                   (yes_no (Credit4.exposure_passed result)));
          markdown "**Reasons:**" ]
     ++ map (fun r => markdown (bullet r)) (Credit4.result_reasons result)
     ++ [ download_button "Download PDF Report"
            (export_to_pdf (inputs_dict p) result)
            "Dyce_Credit_Report.pdf" "application/pdf" ]).

End Formatting.

End Credit4Page.






(** The same application of [Credit17.py] with another credit score and
    another recommended limit. *)
Definition with_credit17 (i : Credit17.Inputs) (score limit : Z) : Credit17.Inputs :=
  {| Credit17.creditsafe_score := score;
     Credit17.recommended_limit := limit;
     Credit17.years_trading := Credit17.years_trading i;
     Credit17.smet_compatible := Credit17.smet_compatible i;
     Credit17.has_ccjs := Credit17.has_ccjs i;
     Credit17.payment_terms := Credit17.payment_terms i;
     Credit17.contract_value := Credit17.contract_value i;
     Credit17.annual_volume := Credit17.annual_volume i;
     Credit17.contract_term := Credit17.contract_term i;
     Credit17.number_of_sites := Credit17.number_of_sites i;
     Credit17.unit_margin := Credit17.unit_margin i;
     Credit17.uplift_standing := Credit17.uplift_standing i;
     Credit17.uplift_unit := Credit17.uplift_unit i;
     Credit17.sic_risk := Credit17.sic_risk i |}.

(** The same application of [credit4.py] with another credit score. *)
Definition with_score4 (i : Credit4.Inputs) (score : Z) : Credit4.Inputs :=
  {| Credit4.approve_threshold := Credit4.approve_threshold i;
     Credit4.refer_threshold := Credit4.refer_threshold i;
     Credit4.min_unit_margin := Credit4.min_unit_margin i;
     Credit4.max_days_to_pay := Credit4.max_days_to_pay i;
     Credit4.business_type := Credit4.business_type i;
     Credit4.years_trading := Credit4.years_trading i;
     Credit4.credit_score := score;
     Credit4.smet_compatible := Credit4.smet_compatible i;
     Credit4.payment_terms := Credit4.payment_terms i;
     Credit4.number_of_sites := Credit4.number_of_sites i;
     Credit4.annual_volume := Credit4.annual_volume i;
     Credit4.contract_value := Credit4.contract_value i;
     Credit4.contract_term := Credit4.contract_term i;
     Credit4.unit_margin := Credit4.unit_margin i;
     Credit4.sic_risk := Credit4.sic_risk i |}.

(** ** Comparisons as propositions *)

Lemma Qleb_iff (x y : Q) : Qleb x y = true <-> (x <= y)%Q.
Proof. unfold Qleb. apply Qle_bool_iff. Qed.

Lemma Qltb_iff (x y : Q) : Qltb x y = true <-> (x < y)%Q.
Proof.
  unfold Qltb. rewrite negb_true_iff, <- not_true_iff_false, Qle_bool_iff.
  split; [apply Qnot_le_lt | apply Qlt_not_le].
Qed.

Lemma str_eq_iff (s t : string) : str_eq s t = true <-> s = t.
Proof. apply String.eqb_eq. Qed.

Lemma str_ne_iff (s t : string) : str_ne s t = true <-> s <> t.
Proof. unfold str_ne. rewrite negb_true_iff. apply String.eqb_neq. Qed.

Lemma tier_covers_iff (row : Tier) (sites : Z) (spend volume : Q) :
  tier_covers sites spend volume row = true <-> dominates row sites spend volume.
Proof.
  unfold tier_covers, dominates.
  rewrite !andb_true_iff, Z.leb_le, !Qleb_iff. tauto.
Qed.

Lemma tier_covers_false_iff (row : Tier) (sites : Z) (spend volume : Q) :
  tier_covers sites spend volume row = false <-> ~ dominates row sites spend volume.
Proof. rewrite <- tier_covers_iff. symmetry. apply not_true_iff_false. Qed.

(** ** The approver resolver *)

(** The loop of [credit4.py] entered with the fallback is the function of
    [Credit17.py]. *)
Lemma matrix_scan_get_required_approver tiers sites spend volume :
  Credit4.matrix_scan tiers "Managing Director" sites spend volume
  = Credit17.get_required_approver tiers sites spend volume.
Proof.
  induction tiers as [|row rest IH]; simpl; [reflexivity|].
  destruct (tier_covers sites spend volume row); [reflexivity | exact IH].
Qed.

Lemma get_required_approver_skip pre rest sites spend volume :
  Forall (fun r => ~ dominates r sites spend volume) pre ->
  Credit17.get_required_approver (pre ++ rest) sites spend volume
  = Credit17.get_required_approver rest sites spend volume.
Proof.
  induction 1 as [|r pre Hr _ IH]; simpl; [reflexivity|].
  apply tier_covers_false_iff in Hr. rewrite Hr. exact IH.
Qed.

Lemma get_required_approver_rank tiers sites spend volume :
  Credit17.get_required_approver tiers sites spend volume
  = role_at tiers (approver_rank tiers sites spend volume).
Proof.
  unfold role_at.
  induction tiers as [|row rest IH]; simpl; [reflexivity|].
  destruct (tier_covers sites spend volume row); [reflexivity | exact IH].
Qed.

Lemma approver_rank_bound tiers sites spend volume :
  (approver_rank tiers sites spend volume <= List.length tiers)%nat.
Proof.
  induction tiers as [|row rest IH]; simpl; [lia|].
  destruct (tier_covers sites spend volume row); lia.
Qed.

Lemma dominates_downward row sites sites' spend spend' volume volume' :
  sites <= sites' -> (spend <= spend')%Q -> (volume <= volume')%Q ->
  dominates row sites' spend' volume' -> dominates row sites spend volume.
Proof.
  unfold dominates. intros Hs Hp Hv (H1 & H2 & H3).
  repeat split; [lia | eapply Qle_trans; eassumption | eapply Qle_trans; eassumption].
Qed.

(** C6: the resolver returns the role of the first tier, in table order,
    whose three ceilings dominate the values (so an earlier row wins over a
    later duplicate or overlapping one), and "Managing Director" when no
    tier matches or the table is empty; the loop of credit4.py computes the
    same role. *)
Theorem first_matching_tier_wins (tiers : list Tier) (sites : Z) (spend volume : Q) :
  (forall pre row post,
      tiers = pre ++ row :: post ->
      Forall (fun r => ~ dominates r sites spend volume) pre ->
      dominates row sites spend volume ->
      Credit17.get_required_approver tiers sites spend volume = role row)
  /\ (Forall (fun r => ~ dominates r sites spend volume) tiers ->
      Credit17.get_required_approver tiers sites spend volume = "Managing Director")
  /\ Credit17.get_required_approver [] sites spend volume = "Managing Director"
  /\ Credit4.matrix_scan tiers "Managing Director" sites spend volume
     = Credit17.get_required_approver tiers sites spend volume.
Proof.
  repeat split.
  - intros pre row post -> Hpre Hrow.
    rewrite get_required_approver_skip by exact Hpre.
    simpl. apply tier_covers_iff in Hrow. now rewrite Hrow.
  - intros Hnone.
    rewrite <- (app_nil_r tiers).
    now rewrite get_required_approver_skip.
  - apply matrix_scan_get_required_approver.
Qed.

(** At 1 site, 10000 pounds and 50000 kWh the first, fourth and fifth rows
    of the sample matrix all match: the first one wins. *)
Lemma first_matching_tier_wins_witness :
  Credit17.get_required_approver sample_matrix 1 10000 50000 = "Sales Manager"
  /\ Credit17.get_required_approver sample_matrix 8 40000 50000 = "Finance Director".
Proof.
  split.
  - apply (proj1 (first_matching_tier_wins sample_matrix 1 10000 50000)
             [] (tier 1 25000 100000 "Sales Manager")
             (tl sample_matrix) eq_refl).
    + constructor.
    + unfold dominates; simpl; repeat split; [lia | discriminate | discriminate].
  - apply (proj1 (first_matching_tier_wins sample_matrix 8 40000 50000)
             (firstn 2 sample_matrix) (tier 20 500000 2000000 "Finance Director")
             (skipn 3 sample_matrix) eq_refl).
    + repeat constructor; unfold dominates; simpl; intros (H1 & H2 & H3);
        try lia; try (apply H2; reflexivity).
    + unfold dominates; simpl; repeat split; [lia | discriminate | discriminate].
Defined.

(** C8: raising the number of sites, the contract value or the annual
    volume (any of them, the others fixed or raised too) never resolves to
    an approver that stands earlier in the tier table: the resolved role is
    the one at the rank of the first covering row, that rank never goes
    down, and the fallback "Managing Director" stands past every row. *)
Theorem approver_rank_monotonic (tiers : list Tier)
  (sites sites' : Z) (spend spend' volume volume' : Q) :
  sites <= sites' -> (spend <= spend')%Q -> (volume <= volume')%Q ->
  (approver_rank tiers sites spend volume <= approver_rank tiers sites' spend' volume')%nat
  /\ (approver_rank tiers sites' spend' volume' <= List.length tiers)%nat
  /\ Credit17.get_required_approver tiers sites spend volume
     = role_at tiers (approver_rank tiers sites spend volume)
  /\ Credit17.get_required_approver tiers sites' spend' volume'
     = role_at tiers (approver_rank tiers sites' spend' volume')
  /\ role_at tiers (List.length tiers) = "Managing Director".
Proof.
  intros Hs Hp Hv.
  split; [|split; [apply approver_rank_bound|]];
    [|split; [apply get_required_approver_rank|]];
    [|split; [apply get_required_approver_rank|]];
    [|unfold role_at; apply nth_overflow; rewrite length_map; lia].
  induction tiers as [|row rest IH]; simpl; [lia|].
  destruct (tier_covers sites spend volume row) eqn:E; [lia|].
  destruct (tier_covers sites' spend' volume' row) eqn:E'; [|lia].
  apply tier_covers_iff in E'. apply tier_covers_false_iff in E.
  exfalso. apply E. eapply dominates_downward; eassumption.
Qed.

Lemma approver_rank_monotonic_witness :
  (approver_rank sample_matrix 1 10000 50000 <= approver_rank sample_matrix 3 10000 50000)%nat
  /\ (approver_rank sample_matrix 3 10000 50000 <= List.length sample_matrix)%nat
  /\ Credit17.get_required_approver sample_matrix 1 10000 50000
     = role_at sample_matrix (approver_rank sample_matrix 1 10000 50000)
  /\ Credit17.get_required_approver sample_matrix 3 10000 50000
     = role_at sample_matrix (approver_rank sample_matrix 3 10000 50000)
  /\ role_at sample_matrix (List.length sample_matrix) = "Managing Director".
Proof.
  apply (approver_rank_monotonic sample_matrix 1 3 10000 10000 50000 50000).
  - lia.
  - apply Qle_refl.
  - apply Qle_refl.
Defined.

(** ** Runs of checks *)

Lemma any_fired_nil_iff (checks : list (bool * string)) :
  any_fired checks = false <-> fired checks = [].
Proof.
  unfold any_fired, fired.
  induction checks as [|[c m] rest IH]; simpl; [tauto|].
  destruct c; simpl; [split; discriminate | exact IH].
Qed.

Lemma fired_In (checks : list (bool * string)) (m : string) :
  In m (fired checks) <-> In (true, m) checks.
Proof.
  unfold fired. rewrite in_map_iff. split.
  - intros ([c m'] & Hm & Hin). simpl in Hm. subst m'.
    apply filter_In in Hin. destruct Hin as [Hin Hc]. simpl in Hc. now subst c.
  - intros Hin. exists (true, m). split; [reflexivity|].
    apply filter_In. now split.
Qed.

Lemma run_checks_append (checks : list (bool * string)) (s : Locals) :
  run_checks append checks s
  = {| decision := decision s; reasons := reasons s ++ fired checks |}.
Proof.
  unfold run_checks. revert s.
  induction checks as [|[c m] rest IH]; intros [d rs]; simpl.
  - now rewrite app_nil_r.
  - rewrite IH. destruct c; simpl; [|reflexivity].
    unfold fired; simpl. now rewrite <- app_assoc.
Qed.

Lemma run_checks_set (d : string) (checks : list (bool * string)) (s : Locals) :
  run_checks (fun m s => append m (set_decision d s)) checks s
  = {| decision := if any_fired checks then d else decision s;
       reasons := reasons s ++ fired checks |}.
Proof.
  unfold run_checks. revert s.
  induction checks as [|[c m] rest IH]; intros [d0 rs]; simpl.
  - now rewrite app_nil_r.
  - rewrite IH. destruct c; simpl.
    + unfold fired, any_fired; simpl. rewrite <- app_assoc.
      now destruct (existsb fst rest).
    + reflexivity.
Qed.

(** ** Credit17.py: what [run_decision] returns *)

Lemma decline_checks17 (i : Credit17.Inputs) (e : Q) (s : Locals) :
  Credit17.decline_checks i e s
  = {| decision := if any_fired (declines17 i e) then "Declined" else decision s;
       reasons := reasons s ++ fired (declines17 i e) |}.
Proof. rewrite <- run_checks_set. reflexivity. Qed.

Lemma yu_energy_note17 (i : Credit17.Inputs) (s : Locals) :
  Credit17.yu_energy_note i s
  = {| decision := decision s; reasons := reasons s ++ fired (notes17 i) |}.
Proof. rewrite <- run_checks_append. reflexivity. Qed.

Lemma referral_checks17 (i : Credit17.Inputs) (s : Locals) :
  Credit17.referral_checks i s
  = {| decision := decision s; reasons := reasons s ++ fired (referrals17 i) |}.
Proof. rewrite <- run_checks_append. reflexivity. Qed.

Lemma three_month_exposure17 (i : Credit17.Inputs) :
  Credit17.contract_term i <> 0 ->
  Credit17.three_month_exposure i
  = Return (Credit17.contract_value i / inject_Z (Credit17.contract_term i) / 4)%Q.
Proof.
  intros Hterm. unfold Credit17.three_month_exposure, true_div.
  apply Z.eqb_neq in Hterm. now rewrite Hterm.
Qed.

(** The whole of [run_decision] in one equation. *)
Lemma run_decision17 (limits_df : list Tier) (i : Credit17.Inputs) :
  Credit17.contract_term i <> 0 ->
  Credit17.run_decision limits_df i
  = Return
      (let e := (Credit17.contract_value i / inject_Z (Credit17.contract_term i) / 4)%Q in
       if any_fired (declines17 i e)
       then ("Declined", None, fired (declines17 i e) ++ fired (notes17 i))
       else ("Approved", Some (resolved17 limits_df i),
             fired (notes17 i) ++ fired (referrals17 i))).
Proof.
  intros Hterm. unfold Credit17.run_decision.
  rewrite (three_month_exposure17 i Hterm). cbn [bind].
  rewrite decline_checks17, yu_energy_note17, referral_checks17.
  cbn [decision reasons app].
  destruct (any_fired _) eqn:Hany.
  - reflexivity.
  - apply any_fired_nil_iff in Hany. rewrite Hany. reflexivity.
Qed.

(** ** credit4.py: what [run_decision] returns *)

Lemma trading_history_check4 (i : Credit4.Inputs) (s : Locals) :
  Credit4.trading_history_check i s
  = run_checks (fun m s => append m (set_decision "Refer" s))
      (firstn 2 (referrals4 i)) s.
Proof.
  unfold Credit4.trading_history_check, run_checks, referrals4, str_ne, str_eq.
  cbn [firstn fold_left fst snd].
  destruct (String.eqb (Credit4.business_type i) "Limited Company");
    destruct (Credit4.years_trading i <? 1); destruct (Credit4.years_trading i <? 2);
    reflexivity.
Qed.

Lemma referral_checks4 (i : Credit4.Inputs) (s : Locals) :
  Credit4.referral_checks i s
  = {| decision := if any_fired (referrals4 i) then "Refer" else decision s;
       reasons := reasons s ++ fired (referrals4 i) |}.
Proof.
  rewrite <- run_checks_set.
  unfold Credit4.referral_checks. rewrite trading_history_check4. reflexivity.
Qed.

Lemma referred4_decision (i : Credit4.Inputs) :
  decision (referred4 i)
  = if any_fired (referrals4 i) then "Refer"
    else decision (Credit4.credit_checks i start).
Proof. unfold referred4. rewrite referral_checks4. reflexivity. Qed.

Lemma referred4_reasons (i : Credit4.Inputs) :
  reasons (referred4 i)
  = reasons (Credit4.credit_checks i start) ++ fired (referrals4 i).
Proof. unfold referred4. rewrite referral_checks4. reflexivity. Qed.

(** The four verdicts of [credit4.py]. *)
Lemma credit_checks4_decision (i : Credit4.Inputs) :
  let d := decision (Credit4.credit_checks i start) in
  d = "Approved" \/ d = "Refer" \/ d = "Declined" \/ d = "Approved with Yu Energy Only".
Proof.
  unfold Credit4.credit_checks.
  destruct (_ <? _); [destruct (_ && _) | destruct (_ && _)]; cbn; tauto.
Qed.

Lemma referred4_verdicts (i : Credit4.Inputs) :
  let d := decision (referred4 i) in
  d = "Approved" \/ d = "Refer" \/ d = "Declined" \/ d = "Approved with Yu Energy Only".
Proof.
  cbv zeta. rewrite referred4_decision.
  destruct (any_fired _); [tauto | apply credit_checks4_decision].
Qed.

Lemma settle_approver_decision (a : string) (s : Locals) :
  decision (snd (Credit4.settle_approver a s)) = decision s.
Proof.
  unfold Credit4.settle_approver.
  destruct (str_eq (decision s) _); [reflexivity|].
  destruct (str_eq (decision s) _); [reflexivity|].
  destruct (str_eq a _); reflexivity.
Qed.

(** The whole of [run_decision] in one equation. *)
Lemma run_decision4 (now : string) (matrix_df : list Tier) (i : Credit4.Inputs) :
  Credit4.contract_term i <> 0 ->
  Credit4.run_decision now matrix_df i
  = Return
      (let e := (Credit4.contract_value i / inject_Z (Credit4.contract_term i) / 4)%Q in
       let settled := Credit4.settle_approver (scanned4 matrix_df i) (referred4 i) in
       {| Credit4.recommendation := decision (referred4 i);
          Credit4.approver := fst settled;
          Credit4.result_reasons := reasons (snd settled);
          Credit4.exposure_estimate := e;
          Credit4.exposure_passed := Qleb e (Credit4.contract_value i);
          Credit4.timestamp := now |}).
Proof.
  intros Hterm. unfold Credit4.run_decision, true_div.
  apply Z.eqb_neq in Hterm. rewrite Hterm. cbn [bind].
  fold (scanned4 matrix_df i). fold (referred4 i).
  pose proof (settle_approver_decision (scanned4 matrix_df i) (referred4 i)) as Hd.
  destruct (Credit4.settle_approver (scanned4 matrix_df i) (referred4 i)) as [a s].
  cbn [fst snd] in *. now rewrite Hd.
Qed.

Lemma run_decision4_zero_term (now : string) (matrix_df : list Tier) (i : Credit4.Inputs) :
  Credit4.contract_term i = 0 ->
  Credit4.run_decision now matrix_df i = ZeroDivisionError.
Proof.
  intros Hterm. unfold Credit4.run_decision, true_div. now rewrite Hterm.
Qed.

Lemma run_decision17_zero_term (limits_df : list Tier) (i : Credit17.Inputs) :
  Credit17.contract_term i = 0 ->
  Credit17.run_decision limits_df i = ZeroDivisionError.
Proof.
  intros Hterm.
  unfold Credit17.run_decision, Credit17.three_month_exposure, true_div.
  now rewrite Hterm.
Qed.

(** ** Tests and conditions *)

(** The tests of the code rewritten into the conditions they decide. *)
Create Rewrite HintDb tests.
#[local] Hint Rewrite andb_true_iff orb_true_iff Z.ltb_lt Z.leb_le
  Qltb_iff Qleb_iff str_eq_iff str_ne_iff : tests.

Lemma referrals17_reflects (i : Credit17.Inputs) :
  reflects (referrals17 i) (referral_conditions17 i).
Proof.
  unfold reflects, referrals17, referral_conditions17.
  repeat (apply Forall2_cons;
          [split; [cbn [fst snd]; autorewrite with tests; reflexivity | reflexivity]|]).
  apply Forall2_nil.
Qed.

Lemma referrals4_reflects (i : Credit4.Inputs) :
  reflects (referrals4 i) (referral_conditions4 i).
Proof.
  unfold reflects, referrals4, referral_conditions4.
  repeat (apply Forall2_cons;
          [split; [cbn [fst snd]; autorewrite with tests; reflexivity | reflexivity]|]).
  apply Forall2_nil.
Qed.

Lemma reflects_fired tests conds :
  reflects tests conds ->
  Forall (fun c => fst c -> In (snd c) (fired tests)) conds.
Proof.
  induction 1 as [|[b m] [P m'] tests conds [Hb Hm] _ IH]; constructor.
  - cbn [fst snd] in *. intros HP. apply fired_In. left.
    apply Hb in HP. now subst.
  - eapply Forall_impl; [|exact IH].
    intros c Hc Hfst. apply fired_In. right. apply fired_In. now apply Hc.
Qed.

Lemma reflects_none tests conds :
  reflects tests conds ->
  Forall (fun c => ~ fst c) conds -> fired tests = [].
Proof.
  induction 1 as [|[b m] [P m'] tests conds [Hb Hm] _ IH]; [reflexivity|].
  intros Hnone. inversion Hnone as [|c cs HnP Hrest]; subst.
  cbn [fst snd] in *. destruct b.
  - exfalso. apply HnP. now apply Hb.
  - unfold fired in *. cbn. now apply IH.
Qed.

Lemma reflects_some tests conds :
  reflects tests conds ->
  Exists (fun c => fst c) conds -> any_fired tests = true.
Proof.
  induction 1 as [|[b m] [P m'] tests conds [Hb Hm] _ IH];
    intros Hsome; inversion Hsome as [c cs HP|c cs Hrest]; subst;
    unfold any_fired in *; cbn [existsb fst snd] in *.
  - apply Hb in HP. now rewrite HP.
  - rewrite IH by assumption. apply orb_true_r.
Qed.

Lemma declines17_any (i : Credit17.Inputs) :
  any_fired (declines17 i (exposure17 i)) = true
  <-> low_score_no_smet17 i \/ adverse_credit17 i \/ over_limit_exposure17 i.
Proof.
  unfold any_fired, declines17, low_score_no_smet17, adverse_credit17,
    over_limit_exposure17.
  cbn [existsb fst]. rewrite orb_false_r. autorewrite with tests. tauto.
Qed.

Lemma declines17_fired (i : Credit17.Inputs) :
  let rs := fired (declines17 i (exposure17 i)) in
  (low_score_no_smet17 i ->
   In "Declined: Credit score below 30 and meter not SMET-compatible." rs)
  /\ (adverse_credit17 i -> In "Declined: CCJs/defaults present." rs)
  /\ (over_limit_exposure17 i ->
      In "Declined: 3-month exposure exceeds recommended limit." rs).
Proof.
  cbv zeta. rewrite !fired_In.
  unfold declines17, low_score_no_smet17, adverse_credit17, over_limit_exposure17.
  repeat split.
  - intros H. left. f_equal. autorewrite with tests. exact H.
  - intros H. right; left. f_equal. autorewrite with tests. exact H.
  - intros H. right; right; left. f_equal. autorewrite with tests. exact H.
Qed.

(** ** Credit17.py: the decline checks *)

(** On [Credit17.py] the three decline checks are not exclusive: any one
    declines, and every one that is met leaves its reason. *)
Lemma hard_declines17 (limits_df : list Tier) (i : Credit17.Inputs) :
  Credit17.contract_term i <> 0 ->
  low_score_no_smet17 i \/ adverse_credit17 i \/ over_limit_exposure17 i ->
  exists rs,
    Credit17.run_decision limits_df i = Return ("Declined", None, rs)
    /\ (low_score_no_smet17 i ->
        In "Declined: Credit score below 30 and meter not SMET-compatible." rs)
    /\ (adverse_credit17 i -> In "Declined: CCJs/defaults present." rs)
    /\ (over_limit_exposure17 i ->
        In "Declined: 3-month exposure exceeds recommended limit." rs).
Proof.
  intros Hterm Hany. rewrite (run_decision17 _ _ Hterm). cbv zeta.
  fold (exposure17 i). apply declines17_any in Hany. rewrite Hany.
  eexists; split; [reflexivity|].
  destruct (declines17_fired i) as (H1 & H2 & H3).
  repeat split; intros H; apply in_or_app; left; auto.
Qed.

(** C3: the three-month exposure is contract_value / contract_term / 4,
    and an application whose exposure exceeds the recommended credit limit
    is Declined whatever its other fields hold, with the exposure reason
    recorded. *)
Theorem exposure_over_limit_declines (limits_df : list Tier) (i : Credit17.Inputs) :
  Credit17.contract_term i <> 0 ->
  (inject_Z (Credit17.recommended_limit i)
   < Credit17.contract_value i / inject_Z (Credit17.contract_term i) / 4)%Q ->
  Credit17.three_month_exposure i
  = Return (Credit17.contract_value i / inject_Z (Credit17.contract_term i) / 4)%Q
  /\ exists rs,
      Credit17.run_decision limits_df i = Return ("Declined", None, rs)
      /\ In "Declined: 3-month exposure exceeds recommended limit." rs.
Proof.
  intros Hterm Hover. split; [now apply three_month_exposure17|].
  destruct (hard_declines17 limits_df i Hterm) as (rs & Hrun & _ & _ & Hmsg).
  - right; right. exact Hover.
  - exists rs. split; [exact Hrun | now apply Hmsg].
Qed.

Lemma exposure_over_limit_declines_witness :
  Credit17.three_month_exposure over_limit17 = Return (100000 / inject_Z 2 / 4)%Q
  /\ exists rs,
      Credit17.run_decision sample_matrix over_limit17 = Return ("Declined", None, rs)
      /\ In "Declined: 3-month exposure exceeds recommended limit." rs.
Proof.
  apply (exposure_over_limit_declines sample_matrix over_limit17).
  - discriminate.
  - reflexivity.
Defined.

(** ** credit4.py: the score check, the approver and the notice *)

Lemma credit_checks4_restricted (i : Credit4.Inputs) :
  Credit4.credit_score i < Credit4.refer_threshold i ->
  Credit4.credit_score i < 30 -> Credit4.smet_compatible i = "Yes" ->
  Credit4.credit_checks i start
  = {| decision := "Approved with Yu Energy Only";
       reasons := ["Credit Score <30: Only Yu Energy permitted due to SMET compatibility"] |}.
Proof.
  intros Hrefer Hlow Hsmet. unfold Credit4.credit_checks.
  apply Z.ltb_lt in Hrefer, Hlow. apply str_eq_iff in Hsmet.
  now rewrite Hrefer, Hlow, Hsmet.
Qed.

Lemma credit_checks4_declined (i : Credit4.Inputs) :
  score_declines4 i ->
  Credit4.credit_checks i start
  = {| decision := "Declined"; reasons := ["Credit Score below minimum threshold"] |}.
Proof.
  intros [Hrefer Hnot]. unfold Credit4.credit_checks.
  apply Z.ltb_lt in Hrefer. rewrite Hrefer.
  destruct (_ && _) eqn:E; [|reflexivity].
  exfalso. apply Hnot. revert E. autorewrite with tests. tauto.
Qed.

Lemma credit_checks4_band (i : Credit4.Inputs) :
  referral_band4 i ->
  Credit4.credit_checks i start
  = {| decision := "Refer"; reasons := ["Credit Score requires referral"] |}.
Proof.
  intros [Hlo Hhi]. unfold Credit4.credit_checks.
  assert ((Credit4.credit_score i <? Credit4.refer_threshold i) = false) as Hge
    by (apply Z.ltb_ge; exact Hlo).
  rewrite Hge.
  apply Z.leb_le in Hlo. apply Z.ltb_lt in Hhi. now rewrite Hlo, Hhi.
Qed.

Lemma credit_checks4_approved (i : Credit4.Inputs) :
  Credit4.refer_threshold i <= Credit4.credit_score i ->
  Credit4.approve_threshold i <= Credit4.credit_score i ->
  Credit4.credit_checks i start = start.
Proof.
  intros Hrefer Happrove. unfold Credit4.credit_checks.
  apply Z.ltb_ge in Hrefer, Happrove. rewrite Hrefer, Happrove.
  now rewrite andb_false_r.
Qed.

Lemma settle_approver_cases (a : string) (s : Locals) :
  (decision s = "Approved with Yu Energy Only" ->
   Credit4.settle_approver a s = (Some "Yu Energy Only", s))
  /\ (decision s = "Declined" -> Credit4.settle_approver a s = (None, s))
  /\ (decision s = "Approved" \/ decision s = "Refer" ->
      Credit4.settle_approver a s
      = (Some a, if str_eq a "Managing Director" then append Credit4.md_notice s else s)).
Proof.
  unfold Credit4.settle_approver. repeat split.
  - now intros ->.
  - now intros ->.
  - intros [-> | ->]; cbn; now destruct (str_eq a _).
Qed.

(** [run_decision] of [credit4.py] keeps every reason the checks left, in
    order, and adds at most the notice at the end. *)
Lemma settle_approver_reasons (a : string) (s : Locals) :
  exists tail, reasons (snd (Credit4.settle_approver a s)) = reasons s ++ tail.
Proof.
  unfold Credit4.settle_approver.
  destruct (str_eq (decision s) _); [exists []; cbn; now rewrite app_nil_r|].
  destruct (str_eq (decision s) _); [exists []; cbn; now rewrite app_nil_r|].
  destruct (str_eq a _); [exists [Credit4.md_notice]; reflexivity|].
  exists []; cbn; now rewrite app_nil_r.
Qed.

(** C2: on credit4.py an application with a score of 20 and a meter that
    is not compatible is declined by the score check (lines 87-93, under
    the comment "Hard declines"), and the sector-risk check that follows
    overwrites the verdict: the call returns Refer with an approver from
    the matrix, not Declined with none.  Credit17.py keeps such a decline
    (lemma hard_declines17). *)
Theorem hard_decline_overridden4 :
  Credit4.credit_score low_score_no_smet_high_risk4 < 30
  /\ Credit4.smet_compatible low_score_no_smet_high_risk4 = "No"
  /\ decision (Credit4.credit_checks low_score_no_smet_high_risk4 start) = "Declined"
  /\ exists r,
      Credit4.run_decision "2025-07-01 09:00:00" sample_matrix
        low_score_no_smet_high_risk4 = Return r
      /\ Credit4.recommendation r = "Refer"
      /\ Credit4.approver r = Some "Sales Manager"
      /\ Credit4.result_reasons r
         = ["Credit Score below minimum threshold"; "SIC Risk too high"].
Proof.
  split; [reflexivity|]. split; [reflexivity|]. split; [reflexivity|].
  eexists. split; [reflexivity|]. cbn. repeat split.
Qed.

(** On [credit4.py] every referral check overwrites a decline of the score
    check, not only on the sample above. *)
Lemma decline_overridden4 (now : string) (matrix_df : list Tier) (i : Credit4.Inputs) :
  Credit4.contract_term i <> 0 ->
  score_declines4 i ->
  Exists (fun c => fst c) (referral_conditions4 i) ->
  decision (Credit4.credit_checks i start) = "Declined"
  /\ exists r,
      Credit4.run_decision now matrix_df i = Return r
      /\ Credit4.recommendation r = "Refer"
      /\ Credit4.approver r = Some (scanned4 matrix_df i)
      /\ In "Credit Score below minimum threshold" (Credit4.result_reasons r).
Proof.
  intros Hterm Hdecl Hsome.
  pose proof (credit_checks4_declined i Hdecl) as Hscore.
  split; [now rewrite Hscore|].
  rewrite (run_decision4 _ _ _ Hterm). cbv zeta.
  eexists. split; [reflexivity|].
  cbn [Credit4.recommendation Credit4.approver Credit4.result_reasons].
  assert (decision (referred4 i) = "Refer") as Hd.
  { rewrite referred4_decision.
    now rewrite (reflects_some _ _ (referrals4_reflects i) Hsome). }
  split; [exact Hd|].
  destruct (settle_approver_cases (scanned4 matrix_df i) (referred4 i)) as (_ & _ & H).
  destruct (settle_approver_reasons (scanned4 matrix_df i) (referred4 i)) as [tail Htail].
  split.
  - rewrite H by (right; exact Hd). reflexivity.
  - rewrite Htail, referred4_reasons, Hscore. now left.
Qed.

(** ** The low score with a compatible meter *)

(** On credit4.py a score of 20 with a compatible meter and payment at 30
    days comes out as Refer: neither the restricted approval nor Approved. *)
Lemma restricted_approval_counterexample :
  Credit4.credit_score low_score_smet_late4 < 30
  /\ Credit4.smet_compatible low_score_smet_late4 = "Yes"
  /\ exists r,
      Credit4.run_decision "2025-07-01 09:00:00" sample_matrix low_score_smet_late4
      = Return r
      /\ Credit4.recommendation r = "Refer"
      /\ Credit4.recommendation r <> "Approved with Yu Energy Only"
      /\ Credit4.recommendation r <> "Approved".
Proof.
  split; [reflexivity|]. split; [reflexivity|].
  eexists. split; [reflexivity|]. cbn. repeat split; discriminate.
Qed.

(** C4 (amended): with a score below 30 and a compatible meter,
    Credit17.py returns Approved with the Yu Energy reason present when no
    other decline condition holds; credit4.py (score below its referral
    threshold) never returns Declined and records its Yu Energy reason, and
    returns the restricted approval with the approver "Yu Energy Only" and
    that single reason when no referral condition holds, and Refer when one
    does. *)
Theorem low_score_compatible_meter
  (limits_df : list Tier) (i17 : Credit17.Inputs)
  (now : string) (matrix_df : list Tier) (i4 : Credit4.Inputs) :
  Credit17.contract_term i17 <> 0 ->
  Credit4.contract_term i4 <> 0 ->
  (Credit17.creditsafe_score i17 < 30 -> Credit17.smet_compatible i17 = "Yes" ->
   ~ adverse_credit17 i17 -> ~ over_limit_exposure17 i17 ->
   exists rs,
     Credit17.run_decision limits_df i17
     = Return ("Approved", Some (resolved17 limits_df i17), rs)
     /\ In "Customer is only eligible with Yu Energy due to SMET compatibility and low score." rs)
  /\ (Credit4.credit_score i4 < 30 ->
      Credit4.credit_score i4 < Credit4.refer_threshold i4 ->
      Credit4.smet_compatible i4 = "Yes" ->
      exists r,
        Credit4.run_decision now matrix_df i4 = Return r
        /\ Credit4.recommendation r <> "Declined"
        /\ In "Credit Score <30: Only Yu Energy permitted due to SMET compatibility"
             (Credit4.result_reasons r)
        /\ (Forall (fun c => ~ fst c) (referral_conditions4 i4) ->
            Credit4.recommendation r = "Approved with Yu Energy Only"
            /\ Credit4.approver r = Some "Yu Energy Only"
            /\ Credit4.result_reasons r
               = ["Credit Score <30: Only Yu Energy permitted due to SMET compatibility"])
        /\ (Exists (fun c => fst c) (referral_conditions4 i4) ->
            Credit4.recommendation r = "Refer")).
Proof.
  intros Hterm17 Hterm4. split.
  - intros Hlow Hsmet Hccj Hexp.
    rewrite (run_decision17 _ _ Hterm17). cbv zeta. fold (exposure17 i17).
    destruct (any_fired _) eqn:Hany.
    + exfalso. apply declines17_any in Hany.
      destruct Hany as [[_ Hno] | [H | H]]; [|now apply Hccj | now apply Hexp].
      rewrite Hsmet in Hno. discriminate.
    + eexists. split; [reflexivity|].
      apply in_or_app. left. apply fired_In. left. f_equal.
      autorewrite with tests. now split.
  - intros Hlow Hrefer Hsmet.
    rewrite (run_decision4 _ _ _ Hterm4). cbv zeta.
    eexists. split; [reflexivity|].
    cbn [Credit4.recommendation Credit4.approver Credit4.result_reasons].
    pose proof (referred4_decision i4) as Hd.
    pose proof (referred4_reasons i4) as Hrs.
    rewrite (credit_checks4_restricted i4 Hrefer Hlow Hsmet) in Hd, Hrs.
    cbn [decision reasons] in Hd, Hrs.
    destruct (settle_approver_reasons (scanned4 matrix_df i4) (referred4 i4))
      as [tail Htail].
    repeat split.
    + rewrite Hd. destruct (any_fired _); discriminate.
    + rewrite Htail, Hrs. cbn. now left.
    + apply (reflects_none _ _ (referrals4_reflects i4)) in H.
      rewrite Hd. apply any_fired_nil_iff in H. now rewrite H.
    + apply (reflects_none _ _ (referrals4_reflects i4)) in H.
      assert (decision (referred4 i4) = "Approved with Yu Energy Only") as Hd'
        by (rewrite Hd; apply any_fired_nil_iff in H; now rewrite H).
      destruct (settle_approver_cases (scanned4 matrix_df i4) (referred4 i4)) as (Hyu & _).
      now rewrite (Hyu Hd').
    + apply (reflects_none _ _ (referrals4_reflects i4)) in H.
      assert (decision (referred4 i4) = "Approved with Yu Energy Only") as Hd'
        by (rewrite Hd; apply any_fired_nil_iff in H; now rewrite H).
      destruct (settle_approver_cases (scanned4 matrix_df i4) (referred4 i4)) as (Hyu & _).
      rewrite (Hyu Hd'). cbn [snd]. rewrite Hrs, H. reflexivity.
    + intros Hsome.
      rewrite Hd. now rewrite (reflects_some _ _ (referrals4_reflects i4) Hsome).
Qed.

Lemma low_score_compatible_meter_witness :
  (exists rs,
     Credit17.run_decision sample_matrix low_score_smet17
     = Return ("Approved", Some (resolved17 sample_matrix low_score_smet17), rs)
     /\ In "Customer is only eligible with Yu Energy due to SMET compatibility and low score." rs)
  /\ (exists r,
        Credit4.run_decision "2025-07-01 09:00:00" sample_matrix low_score_smet4 = Return r
        /\ Credit4.recommendation r = "Approved with Yu Energy Only"
        /\ Credit4.approver r = Some "Yu Energy Only").
Proof.
  destruct (low_score_compatible_meter sample_matrix low_score_smet17
              "2025-07-01 09:00:00" sample_matrix low_score_smet4)
    as [H17 H4]; [discriminate | discriminate |].
  split.
  - apply H17; [reflexivity | reflexivity | discriminate | discriminate].
  - destruct H4 as (r & Hrun & _ & _ & Hclean & _);
      [reflexivity | reflexivity | reflexivity |].
    exists r. split; [exact Hrun|].
    destruct Hclean as (Hd & Ha & _); [|now split].
    repeat constructor; cbn [fst];
      [ intros [H _]; now apply H
      | intros [_ H]; revert H; discriminate
      | intros [H _]; now apply H
      | intros [H | H]; discriminate H
      | discriminate ].
Defined.

(** ** The required approver *)

(** On Credit17.py a score of 20 with a compatible meter gets its approver
    from the tier table: the role of the first row of the sample matrix. *)
Lemma exception_path_approver_counterexample :
  Credit17.creditsafe_score low_score_smet17 < 30
  /\ Credit17.smet_compatible low_score_smet17 = "Yes"
  /\ Credit17.run_decision sample_matrix low_score_smet17
     = Return ("Approved", Some "Sales Manager",
               ["Customer is only eligible with Yu Energy due to SMET compatibility and low score.";
                "Referral: Low credit score."])
  /\ resolved17 sample_matrix low_score_smet17 = "Sales Manager"
  /\ "Sales Manager" <> "Yu Energy Only".
Proof.
  split; [reflexivity|]. split; [reflexivity|]. split; [reflexivity|].
  split; [reflexivity | discriminate].
Qed.

(** C5 (amended): both scripts return an approver exactly when the verdict
    is not Declined, Refer included.  On credit4.py the restricted approval
    always carries the approver "Yu Energy Only", and Refer and Approved
    carry the role found in the matrix.  Credit17.py has no restricted
    verdict: every verdict that is not Declined, the low score with a
    compatible meter included, carries the role found in the tier table. *)
Theorem approver_present_iff_not_declined
  (limits_df : list Tier) (i17 : Credit17.Inputs)
  (now : string) (matrix_df : list Tier) (i4 : Credit4.Inputs) :
  Credit17.contract_term i17 <> 0 ->
  Credit4.contract_term i4 <> 0 ->
  (exists d a rs,
     Credit17.run_decision limits_df i17 = Return (d, a, rs)
     /\ (a <> None <-> d <> "Declined")
     /\ (d <> "Declined" -> a = Some (resolved17 limits_df i17)))
  /\ (exists r,
        Credit4.run_decision now matrix_df i4 = Return r
        /\ (Credit4.approver r <> None <-> Credit4.recommendation r <> "Declined")
        /\ (Credit4.recommendation r = "Approved with Yu Energy Only" ->
            Credit4.approver r = Some "Yu Energy Only")
        /\ (Credit4.recommendation r = "Refer" \/ Credit4.recommendation r = "Approved" ->
            Credit4.approver r = Some (scanned4 matrix_df i4))).
Proof.
  intros Hterm17 Hterm4. split.
  - rewrite (run_decision17 _ _ Hterm17). cbv zeta.
    destruct (any_fired _); do 3 eexists; (split; [reflexivity|]); split.
    + split; intros H; now elim H.
    + intros H; now elim H.
    + split; discriminate.
    + reflexivity.
  - rewrite (run_decision4 _ _ _ Hterm4). cbv zeta.
    eexists. split; [reflexivity|].
    cbn [Credit4.recommendation Credit4.approver].
    destruct (settle_approver_cases (scanned4 matrix_df i4) (referred4 i4))
      as (Hyu & Hdecl & Hrole).
    destruct (referred4_verdicts i4) as [Hd | [Hd | [Hd | Hd]]]; cbv zeta in Hd.
    + rewrite Hrole by tauto. rewrite Hd. cbn [fst].
      repeat split; try discriminate; reflexivity.
    + rewrite Hrole by tauto. rewrite Hd. cbn [fst].
      repeat split; try discriminate; reflexivity.
    + rewrite (Hdecl Hd). rewrite Hd. cbn [fst].
      repeat split; try discriminate; try (intros H; now elim H);
        try (intros [H | H]; discriminate H).
    + rewrite (Hyu Hd). rewrite Hd. cbn [fst].
      repeat split; try discriminate; try (intros [H | H]; discriminate H).
Qed.

Lemma approver_present_iff_not_declined_witness :
  (exists d a rs,
     Credit17.run_decision sample_matrix high_risk17 = Return (d, a, rs)
     /\ (a <> None <-> d <> "Declined")
     /\ (d <> "Declined" -> a = Some (resolved17 sample_matrix high_risk17)))
  /\ (exists r,
        Credit4.run_decision "2025-07-01 09:00:00" sample_matrix low_score_smet_late4
        = Return r
        /\ (Credit4.approver r <> None <-> Credit4.recommendation r <> "Declined")
        /\ (Credit4.recommendation r = "Approved with Yu Energy Only" ->
            Credit4.approver r = Some "Yu Energy Only")
        /\ (Credit4.recommendation r = "Refer" \/ Credit4.recommendation r = "Approved" ->
            Credit4.approver r = Some (scanned4 sample_matrix low_score_smet_late4))).
Proof.
  apply (approver_present_iff_not_declined sample_matrix high_risk17
           "2025-07-01 09:00:00" sample_matrix low_score_smet_late4);
    discriminate.
Defined.

(** ** The clean application *)

(** On credit4.py a score of 70 with nothing else triggered is referred,
    and a score of 85 with nothing triggered and an empty matrix is
    approved with the Managing Director notice in its reasons. *)
Lemma clean_application_counterexample :
  (60 <= Credit4.credit_score score_70_clean4
   /\ Forall (fun c => ~ fst c) (referral_conditions4 score_70_clean4)
   /\ exists r,
       Credit4.run_decision "2025-07-01 09:00:00" sample_matrix score_70_clean4 = Return r
       /\ Credit4.recommendation r = "Refer"
       /\ Credit4.result_reasons r = ["Credit Score requires referral"])
  /\ (60 <= Credit4.credit_score clean4
      /\ Forall (fun c => ~ fst c) (referral_conditions4 clean4)
      /\ exists r,
          Credit4.run_decision "2025-07-01 09:00:00" [] clean4 = Return r
          /\ Credit4.recommendation r = "Approved"
          /\ Credit4.result_reasons r = [Credit4.md_notice]).
Proof.
  assert (forall score,
             Forall (fun c => ~ fst c)
               (referral_conditions4 (application4 score "Yes" "14 Days DD" "Low"))) as Hclean.
  { intros score. repeat constructor; cbn [fst];
      [ intros [H _]; now apply H
      | intros [_ H]; revert H; discriminate
      | intros [H _]; now apply H
      | intros [H | H]; discriminate H
      | discriminate ]. }
  split; (split; [discriminate|]); (split; [apply Hclean|]);
    eexists; (split; [reflexivity|]); split; reflexivity.
Qed.

(** C7 (amended): on Credit17.py a score of at least 60 with no decline
    and no referral condition triggered is Approved with an empty reason
    list.  On credit4.py the score must reach the approval threshold (80 by
    default; a score from the referral threshold up to it is referred):
    then, with no referral condition triggered, the verdict is Approved
    and the reason list is empty unless the matrix resolves to "Managing
    Director", whose notice is then the only reason. *)
Theorem clean_application_approved
  (limits_df : list Tier) (i17 : Credit17.Inputs)
  (now : string) (matrix_df : list Tier) (i4 : Credit4.Inputs) :
  Credit17.contract_term i17 <> 0 ->
  Credit4.contract_term i4 <> 0 ->
  (60 <= Credit17.creditsafe_score i17 ->
   ~ adverse_credit17 i17 -> ~ over_limit_exposure17 i17 ->
   Forall (fun c => ~ fst c) (referral_conditions17 i17) ->
   Credit17.run_decision limits_df i17
   = Return ("Approved", Some (resolved17 limits_df i17), []))
  /\ (Forall (fun c => ~ fst c) (referral_conditions4 i4) ->
      exists r,
        Credit4.run_decision now matrix_df i4 = Return r
        /\ (Credit4.refer_threshold i4 <= Credit4.credit_score i4 ->
            Credit4.approve_threshold i4 <= Credit4.credit_score i4 ->
            Credit4.recommendation r = "Approved"
            /\ Credit4.approver r = Some (scanned4 matrix_df i4)
            /\ Credit4.result_reasons r
               = if str_eq (scanned4 matrix_df i4) "Managing Director"
                 then [Credit4.md_notice] else [])
        /\ (referral_band4 i4 ->
            Credit4.recommendation r = "Refer"
            /\ In "Credit Score requires referral" (Credit4.result_reasons r))).
Proof.
  intros Hterm17 Hterm4. split.
  - intros Hscore Hccj Hexp Hnone.
    rewrite (run_decision17 _ _ Hterm17). cbv zeta. fold (exposure17 i17).
    destruct (any_fired _) eqn:Hany.
    + exfalso. apply declines17_any in Hany.
      destruct Hany as [[Hlow _] | [H | H]]; [lia | now apply Hccj | now apply Hexp].
    + rewrite (reflects_none _ _ (referrals17_reflects i17) Hnone).
      assert (fired (notes17 i17) = []) as ->; [|reflexivity].
      unfold fired, notes17. cbn [filter fst].
      assert ((Credit17.creditsafe_score i17 <? 30) = false) as Hge
        by (apply Z.ltb_ge; lia).
      now rewrite Hge.
  - intros Hnone.
    rewrite (run_decision4 _ _ _ Hterm4). cbv zeta.
    eexists. split; [reflexivity|].
    cbn [Credit4.recommendation Credit4.approver Credit4.result_reasons].
    pose proof (referred4_decision i4) as Hd.
    pose proof (referred4_reasons i4) as Hrs.
    pose proof (reflects_none _ _ (referrals4_reflects i4) Hnone) as Hfired.
    rewrite Hfired, app_nil_r in Hrs.
    apply any_fired_nil_iff in Hfired. rewrite Hfired in Hd.
    destruct (settle_approver_cases (scanned4 matrix_df i4) (referred4 i4))
      as (_ & _ & Hrole).
    split.
    + intros Hrefer Happrove.
      rewrite (credit_checks4_approved i4 Hrefer Happrove) in Hd, Hrs.
      cbn [start decision reasons] in Hd, Hrs.
      rewrite Hrole by tauto. cbn [fst snd].
      split; [exact Hd|]. split; [reflexivity|].
      destruct (str_eq _ _); [|exact Hrs].
      cbn [append reasons]. now rewrite Hrs.
    + intros Hband.
      rewrite (credit_checks4_band i4 Hband) in Hd, Hrs.
      cbn [decision reasons] in Hd, Hrs.
      split; [exact Hd|].
      destruct (settle_approver_reasons (scanned4 matrix_df i4) (referred4 i4))
        as [tail Htail].
      rewrite Htail, Hrs. now left.
Qed.

Lemma clean_application_approved_witness :
  Credit17.run_decision sample_matrix clean17
  = Return ("Approved", Some (resolved17 sample_matrix clean17), [])
  /\ exists r,
      Credit4.run_decision "2025-07-01 09:00:00" sample_matrix clean4 = Return r
      /\ Credit4.recommendation r = "Approved"
      /\ Credit4.result_reasons r = [].
Proof.
  destruct (clean_application_approved sample_matrix clean17
              "2025-07-01 09:00:00" sample_matrix clean4)
    as [H17 H4]; [discriminate | discriminate |].
  split.
  - apply H17; [discriminate | discriminate | discriminate |].
    repeat constructor; cbn [fst];
      [ discriminate
      | intros [H | H]; discriminate H
      | intros H; now apply H
      | discriminate | discriminate | discriminate | discriminate ].
  - destruct H4 as (r & Hrun & Happroved & _).
    + repeat constructor; cbn [fst];
        [ intros [H _]; now apply H
        | intros [_ H]; revert H; discriminate
        | intros [H _]; now apply H
        | intros [H | H]; discriminate H
        | discriminate ].
    + exists r. split; [exact Hrun|].
      destruct Happroved as (Hd & _ & Hrs); [discriminate | discriminate |].
      split; [exact Hd | exact Hrs].
Defined.

(** ** The referral checks *)

(** On Credit17.py a high-risk sector on an otherwise clean application
    leaves its reason and the verdict stays Approved: it is not Refer. *)
Lemma referral_escalation_counterexample :
  Credit17.sic_risk high_risk17 = "High"
  /\ Credit17.run_decision sample_matrix high_risk17
     = Return ("Approved", Some "Sales Manager", ["Referral: High sector risk."])
  /\ "Approved" <> "Refer".
Proof. split; [reflexivity|]. split; [reflexivity | discriminate]. Qed.

(** C1 (amended): on Credit17.py, for every application that is not
    Declined, each referral condition that holds (score below 60, High or
    Very High sector risk, terms other than 7 Days Direct Debit, margin
    below 0.5, standing uplift above 5, unit uplift above 1, less than one
    year of trading) appends its reason, the reasons accumulate in the
    order of the checks after the Yu Energy note, and the verdict stays
    Approved.  On credit4.py each referral condition that holds (trading
    history below the minimum of the business type, terms other than the
    two 14-day ones, High or Very High sector risk, margin below the
    configured minimum, and the score band from the referral threshold up
    to the approval threshold) appends its reason, the reasons accumulate
    in order, and the verdict of an application the score check did not
    decline becomes Refer and stays Refer. *)
Theorem referral_reasons_accumulate
  (limits_df : list Tier) (i17 : Credit17.Inputs)
  (now : string) (matrix_df : list Tier) (i4 : Credit4.Inputs) :
  Credit17.contract_term i17 <> 0 ->
  Credit4.contract_term i4 <> 0 ->
  (exists d a rs,
     Credit17.run_decision limits_df i17 = Return (d, a, rs)
     /\ (d <> "Declined" ->
         d = "Approved"
         /\ rs = fired (notes17 i17) ++ fired (referrals17 i17)
         /\ Forall (fun c => fst c -> In (snd c) rs) (referral_conditions17 i17)))
  /\ (exists r,
        Credit4.run_decision now matrix_df i4 = Return r
        /\ (exists tail,
              Credit4.result_reasons r
              = reasons (Credit4.credit_checks i4 start) ++ fired (referrals4 i4) ++ tail)
        /\ Forall (fun c => fst c -> In (snd c) (Credit4.result_reasons r))
             (referral_conditions4 i4)
        /\ (referral_band4 i4 ->
            In "Credit Score requires referral" (Credit4.result_reasons r)
            /\ Credit4.recommendation r = "Refer")
        /\ (~ score_declines4 i4 ->
            Exists (fun c => fst c) (referral_conditions4 i4) ->
            Credit4.recommendation r = "Refer")).
Proof.
  intros Hterm17 Hterm4. split.
  - rewrite (run_decision17 _ _ Hterm17). cbv zeta.
    destruct (any_fired _); do 3 eexists; (split; [reflexivity|]); intros Hd.
    + now elim Hd.
    + split; [reflexivity|]. split; [reflexivity|].
      eapply Forall_impl; [|apply (reflects_fired _ _ (referrals17_reflects i17))].
      intros c Hc Hfst. apply in_or_app. right. now apply Hc.
  - rewrite (run_decision4 _ _ _ Hterm4). cbv zeta.
    eexists. split; [reflexivity|].
    cbn [Credit4.recommendation Credit4.result_reasons].
    destruct (settle_approver_reasons (scanned4 matrix_df i4) (referred4 i4))
      as [tail Htail].
    rewrite Htail, referred4_reasons, referred4_decision.
    split; [exists tail; now rewrite app_assoc|].
    split; [|split].
    + eapply Forall_impl; [|apply (reflects_fired _ _ (referrals4_reflects i4))].
      intros c Hc Hfst. apply in_or_app. left. apply in_or_app. right. now apply Hc.
    + intros Hband. rewrite (credit_checks4_band i4 Hband). cbn [decision reasons].
      split; [now left | now destruct (any_fired _)].
    + intros _ Hsome.
      now rewrite (reflects_some _ _ (referrals4_reflects i4) Hsome).
Qed.

Lemma referral_reasons_accumulate_witness :
  (exists d a rs,
     Credit17.run_decision sample_matrix two_referrals17 = Return (d, a, rs)
     /\ d = "Approved"
     /\ rs = ["Referral: High sector risk."; "Referral: Non-standard payment terms."])
  /\ (exists r,
        Credit4.run_decision "2025-07-01 09:00:00" sample_matrix three_referrals4 = Return r
        /\ Credit4.recommendation r = "Refer"
        /\ In "Payment terms exceed acceptable" (Credit4.result_reasons r)
        /\ In "SIC Risk too high" (Credit4.result_reasons r)
        /\ In "Credit Score requires referral" (Credit4.result_reasons r)).
Proof.
  destruct (referral_reasons_accumulate sample_matrix two_referrals17
              "2025-07-01 09:00:00" sample_matrix three_referrals4)
    as [H17 H4]; [discriminate | discriminate |].
  split.
  - destruct H17 as (d & a & rs & Hrun & Hrest).
    exists d, a, rs. split; [exact Hrun|].
    injection Hrun as Hd Ha Hrs.
    destruct Hrest as (Happroved & Hfired & _); [rewrite <- Hd; discriminate|].
    split; [exact Happroved | exact Hfired].
  - destruct H4 as (r & Hrun & _ & Hall & Hband & Hrefer).
    exists r. split; [exact Hrun|].
    split; [apply Hrefer|].
    + intros [Hlt _]. cbv in Hlt. discriminate Hlt.
    + right; right; left. cbn [fst]. split; discriminate.
    + inversion Hall as [|c1 l1 _ H1]; subst.
      inversion H1 as [|c2 l2 _ H2]; subst.
      inversion H2 as [|c3 l3 Hterms H3]; subst.
      inversion H3 as [|c4 l4 Hrisk _]; subst.
      cbn [fst snd] in Hterms, Hrisk.
      split; [apply Hterms; split; discriminate|].
      split; [apply Hrisk; now left|].
      apply Hband. split; [discriminate | reflexivity].
Defined.

(** ** The exposure test of credit4.py *)

Lemma exposure_within_contract_value (value : Q) (term : Z) :
  (0 <= value)%Q -> 1 <= term ->
  (value / inject_Z term / 4 <= value)%Q.
Proof.
  intros Hvalue Hterm.
  assert (1 <= inject_Z term)%Q as Hone
    by (change 1%Q with (inject_Z 1); rewrite <- Zle_Qle; exact Hterm).
  apply Qle_shift_div_r; [reflexivity|].
  apply Qle_shift_div_r; [lra|].
  nra.
Qed.

(** C10: on credit4.py, with a contract value of at least 0 and a term of
    at least 1, the exposure estimate is contract_value / contract_term / 4
    and the flag exposure_passed is true, the estimate being compared with
    the contract value itself; and the verdict, the approver and the
    reasons are the same for every other term, so the exposure computation
    reaches none of them. *)
Theorem exposure_passed_always
  (now : string) (matrix_df : list Tier) (i : Credit4.Inputs) (term' : Z) :
  (0 <= Credit4.contract_value i)%Q ->
  1 <= Credit4.contract_term i ->
  term' <> 0 ->
  exists r r',
    Credit4.run_decision now matrix_df i = Return r
    /\ (Credit4.exposure_estimate r
        == Credit4.contract_value i / inject_Z (Credit4.contract_term i) / 4)%Q
    /\ Credit4.exposure_passed r = true
    /\ Credit4.run_decision now matrix_df (with_contract_term i term') = Return r'
    /\ Credit4.recommendation r' = Credit4.recommendation r
    /\ Credit4.approver r' = Credit4.approver r
    /\ Credit4.result_reasons r' = Credit4.result_reasons r.
Proof.
  intros Hvalue Hterm Hterm'.
  assert (Credit4.contract_term i <> 0) as Hnz by lia.
  rewrite (run_decision4 now matrix_df i Hnz).
  rewrite (run_decision4 now matrix_df (with_contract_term i term') Hterm').
  cbv zeta. do 2 eexists. split; [reflexivity|].
  cbn [Credit4.exposure_estimate Credit4.exposure_passed Credit4.recommendation
       Credit4.approver Credit4.result_reasons].
  split; [reflexivity|].
  split; [apply Qleb_iff; now apply exposure_within_contract_value|].
  split; [reflexivity|].
  repeat split.
Qed.

Lemma exposure_passed_always_witness :
  exists r r',
    Credit4.run_decision "2025-07-01 09:00:00" sample_matrix three_referrals4 = Return r
    /\ (Credit4.exposure_estimate r == 10000 / inject_Z 2 / 4)%Q
    /\ Credit4.exposure_passed r = true
    /\ Credit4.run_decision "2025-07-01 09:00:00" sample_matrix
         (with_contract_term three_referrals4 10) = Return r'
    /\ Credit4.recommendation r' = Credit4.recommendation r
    /\ Credit4.approver r' = Credit4.approver r
    /\ Credit4.result_reasons r' = Credit4.result_reasons r.
Proof.
  apply (exposure_passed_always "2025-07-01 09:00:00" sample_matrix three_referrals4 10);
    discriminate.
Defined.

(** ** Determinism *)

Lemma Qleb_same (x x' y y' : Q) :
  (x == x')%Q -> (y == y')%Q -> Qleb x y = Qleb x' y'.
Proof. intros Hx Hy. unfold Qleb. now rewrite Hx, Hy. Qed.

Lemma Qltb_same (x x' y y' : Q) :
  (x == x')%Q -> (y == y')%Q -> Qltb x y = Qltb x' y'.
Proof. intros Hx Hy. unfold Qltb. now rewrite Hx, Hy. Qed.

Lemma tier_covers_same (t u : Tier) (sites : Z) (spend spend' volume volume' : Q) :
  same_tier t u -> (spend == spend')%Q -> (volume == volume')%Q ->
  tier_covers sites spend volume t = tier_covers sites spend' volume' u.
Proof.
  intros (Hsites & Hspend & Hvolume & _) Hp Hv. unfold tier_covers.
  now rewrite Hsites, (Qleb_same _ _ _ _ Hp Hspend), (Qleb_same _ _ _ _ Hv Hvolume).
Qed.

Lemma get_required_approver_same (tiers tiers' : list Tier)
  (sites : Z) (spend spend' volume volume' : Q) :
  same_table tiers tiers' -> (spend == spend')%Q -> (volume == volume')%Q ->
  Credit17.get_required_approver tiers sites spend volume
  = Credit17.get_required_approver tiers' sites spend' volume'.
Proof.
  intros Htable Hp Hv.
  induction Htable as [|t u tiers tiers' Htu _ IH]; cbn; [reflexivity|].
  rewrite (tier_covers_same t u sites _ _ _ _ Htu Hp Hv).
  destruct (tier_covers _ _ _ u); [|exact IH].
  now destruct Htu as (_ & _ & _ & Hrole).
Qed.

Lemma exposure17_same (i j : Credit17.Inputs) :
  same_inputs17 i j -> (exposure17 i == exposure17 j)%Q.
Proof.
  intros (_ & _ & _ & _ & _ & _ & Hvalue & _ & Hterm & _). unfold exposure17.
  now rewrite Hvalue, Hterm.
Qed.

Lemma tables17_same (i j : Credit17.Inputs) :
  same_inputs17 i j ->
  declines17 i (exposure17 i) = declines17 j (exposure17 j)
  /\ notes17 i = notes17 j
  /\ referrals17 i = referrals17 j.
Proof.
  intros Hsame. pose proof (exposure17_same i j Hsame) as Hexp.
  destruct Hsame as (Hscore & Hlimit & Hyears & Hsmet & Hccjs & Hterms & _ & _ & _
                     & _ & Hmargin & Hstanding & Hunit & Hrisk).
  unfold declines17, notes17, referrals17.
  rewrite Hscore, Hlimit, Hyears, Hsmet, Hccjs, Hterms, Hrisk.
  rewrite (Qltb_same _ _ _ _ (Qeq_refl _) Hexp).
  rewrite (Qltb_same _ _ _ _ Hmargin (Qeq_refl 0.5)).
  rewrite (Qltb_same _ _ _ _ (Qeq_refl 5.0) Hstanding).
  rewrite (Qltb_same _ _ _ _ (Qeq_refl 1.0) Hunit).
  repeat split.
Qed.

Lemma referred4_same (i j : Credit4.Inputs) :
  same_inputs4 i j -> referred4 i = referred4 j.
Proof.
  intros (Happrove & Hrefer & Hmin & _ & Htype & Hyears & Hscore & Hsmet & Hterms
          & _ & _ & _ & _ & Hmargin & Hrisk).
  unfold referred4, Credit4.referral_checks, Credit4.trading_history_check,
    Credit4.credit_checks.
  rewrite Happrove, Hrefer, Htype, Hyears, Hscore, Hsmet, Hterms, Hrisk.
  now rewrite (Qltb_same _ _ _ _ Hmargin Hmin).
Qed.

Lemma scanned4_same (matrix_df matrix_df' : list Tier) (i j : Credit4.Inputs) :
  same_table matrix_df matrix_df' -> same_inputs4 i j ->
  scanned4 matrix_df i = scanned4 matrix_df' j.
Proof.
  intros Htable (_ & _ & _ & _ & _ & _ & _ & _ & _ & Hsites & Hvolume & Hvalue & _).
  unfold scanned4. rewrite !matrix_scan_get_required_approver, Hsites.
  now apply get_required_approver_same.
Qed.

(** C9: two evaluations on identical input fields and identical reference
    tables give the identical verdict, the identical approver and the
    identical reasons in the identical order, whatever the clock reads at
    either call (the timestamp of credit4.py is the only part that may
    differ); a call that raises on a zero term raises both times. *)
Theorem run_decision_deterministic
  (limits_df limits_df' : list Tier) (i17 j17 : Credit17.Inputs)
  (now now' : string) (matrix_df matrix_df' : list Tier) (i4 j4 : Credit4.Inputs) :
  same_table limits_df limits_df' -> same_inputs17 i17 j17 ->
  same_table matrix_df matrix_df' -> same_inputs4 i4 j4 ->
  Credit17.run_decision limits_df i17 = Credit17.run_decision limits_df' j17
  /\ same_outcome4 (Credit4.run_decision now matrix_df i4)
       (Credit4.run_decision now' matrix_df' j4).
Proof.
  intros Hlimits H17 Hmatrix H4. split.
  - destruct (tables17_same i17 j17 H17) as (Hdeclines & Hnotes & Hreferrals).
    assert (resolved17 limits_df i17 = resolved17 limits_df' j17) as Hresolved.
    { destruct H17 as (_ & _ & _ & _ & _ & _ & Hvalue & Hvolume & _ & Hsites & _).
      unfold resolved17. rewrite Hsites. now apply get_required_approver_same. }
    assert (Credit17.contract_term i17 = Credit17.contract_term j17) as Hterm
      by apply H17.
    destruct (Z.eq_dec (Credit17.contract_term i17) 0) as [Hz | Hnz].
    + rewrite !run_decision17_zero_term; congruence.
    + rewrite !run_decision17 by congruence. cbv zeta.
      fold (exposure17 i17). fold (exposure17 j17).
      now rewrite Hdeclines, Hnotes, Hreferrals, Hresolved.
  - assert (Credit4.contract_term i4 = Credit4.contract_term j4) as Hterm
      by apply H4.
    destruct (Z.eq_dec (Credit4.contract_term i4) 0) as [Hz | Hnz].
    + rewrite !run_decision4_zero_term by congruence. exact I.
    + rewrite !run_decision4 by congruence. cbv zeta.
      rewrite (referred4_same i4 j4 H4), (scanned4_same _ _ _ _ Hmatrix H4).
      assert (Credit4.contract_value i4 == Credit4.contract_value j4)%Q as Hvalue
        by apply H4.
      cbn. repeat split.
      * now rewrite Hvalue, Hterm.
      * apply Qleb_same; [now rewrite Hvalue, Hterm | exact Hvalue].
Qed.

Lemma run_decision_deterministic_witness :
  Credit17.run_decision sample_matrix clean17
  = Credit17.run_decision sample_matrix clean17_unreduced
  /\ same_outcome4
       (Credit4.run_decision "2025-07-01 09:00:00" sample_matrix clean4)
       (Credit4.run_decision "2025-07-01 09:00:07" sample_matrix clean4_unreduced).
Proof.
  apply (run_decision_deterministic sample_matrix sample_matrix clean17 clean17_unreduced
           "2025-07-01 09:00:00" "2025-07-01 09:00:07"
           sample_matrix sample_matrix clean4 clean4_unreduced).
  - repeat constructor.
  - repeat split.
  - repeat constructor.
  - repeat split.
Defined.

(** ** Tables of tests: membership and order *)

Lemma fired_app (xs ys : list (bool * string)) :
  fired (xs ++ ys) = fired xs ++ fired ys.
Proof. unfold fired. now rewrite filter_app, map_app. Qed.

Lemma reflects_app tests tests' conds conds' :
  reflects tests conds -> reflects tests' conds' ->
  reflects (tests ++ tests') (conds ++ conds').
Proof. unfold reflects. apply Forall2_app. Qed.

Lemma reflects_guard (g : bool) (G : Prop) tests conds :
  (g = true <-> G) ->
  reflects tests conds ->
  reflects (map (fun t => (g && fst t, snd t)) tests)
           (map (fun c => (G /\ fst c, snd c)) conds).
Proof.
  intros Hg. induction 1 as [|[b m] [P m'] tests conds [Hb Hm] _ IH]; cbn.
  - constructor.
  - constructor; [|exact IH]. cbn [fst snd] in *. split; [|exact Hm].
    rewrite andb_true_iff. tauto.
Qed.

Lemma reflects_In tests conds (m : string) :
  reflects tests conds ->
  In m (fired tests) <-> Exists (fun c => fst c /\ snd c = m) conds.
Proof.
  induction 1 as [|[b m0] [P m'] tests conds [Hb Hm] _ IH].
  - cbn. split; [tauto | intros H; inversion H].
  - cbn [fst snd] in *. subst m'. rewrite Exists_cons. cbn [fst snd].
    rewrite <- IH. unfold fired. cbn. destruct b; cbn.
    + split.
      * intros [-> | H]; [left; split; [now apply Hb | reflexivity] | now right].
      * intros [[_ ->] | H]; [now left | now right].
    + split; [now right|].
      intros [[HP _] | H]; [apply Hb in HP; discriminate | exact H].
Qed.

Lemma reflects_any tests conds :
  reflects tests conds ->
  any_fired tests = true <-> Exists (fun c => fst c) conds.
Proof.
  intros Hr. split; [|now apply reflects_some].
  induction Hr as [|[b m0] [P m'] tests conds [Hb Hm] _ IH]; unfold any_fired in *; cbn.
  - discriminate.
  - cbn [fst snd] in *. destruct b; cbn.
    + intros _. left. now apply Hb.
    + intros H. right. now apply IH.
Qed.

Lemma mem_In (m : string) (rs : list string) : mem m rs = true <-> In m rs.
Proof.
  unfold mem. rewrite existsb_exists. split.
  - intros (x & Hin & Heq). apply String.eqb_eq in Heq. now subst.
  - intros Hin. exists m. split; [exact Hin | apply String.eqb_refl].
Qed.

Lemma fired_incl tests (m : string) : In m (fired tests) -> In m (map snd tests).
Proof.
  unfold fired. rewrite !in_map_iff.
  intros (t & Hm & Hin). exists t. split; [exact Hm|].
  now apply filter_In in Hin.
Qed.

(** When no message stands twice in a table, the messages that fired are
    the table's messages that occur among them, in the table's order. *)
Lemma fired_in_order tests :
  NoDup (map snd tests) ->
  fired tests = filter (fun m => mem m (fired tests)) (map snd tests).
Proof.
  induction tests as [|[b m] tests IH]; [reflexivity|].
  cbn [map snd]. intros Hnodup. inversion Hnodup as [|x xs Hnotin Hrest]; subst.
  assert (mem m (fired tests) = false) as Hfresh.
  { apply not_true_iff_false. rewrite mem_In. intros Hin. apply Hnotin.
    now apply fired_incl. }
  assert (forall x, In x (map snd tests) -> (x =? m)%string = false) as Hother.
  { intros x Hin. apply String.eqb_neq. intros ->. now apply Hnotin. }
  assert (fired ((b, m) :: tests) = if b then m :: fired tests else fired tests) as Hstep
    by (unfold fired; cbn; now destruct b).
  rewrite Hstep. cbn [map snd filter]. destruct b.
  - unfold mem at 1. cbn [existsb]. rewrite String.eqb_refl. cbn [orb]. f_equal.
    rewrite (IH Hrest) at 1.
    apply filter_ext_in. intros x Hin. unfold mem. cbn [existsb].
    now rewrite (Hother x Hin).
  - rewrite Hfresh. apply (IH Hrest).
Qed.

(** ** Credit17.py: the verdict and the reasons, exactly *)

Lemma messages17_NoDup : NoDup messages17.
Proof.
  unfold messages17.
  repeat (constructor; [cbn [In]; intuition discriminate|]).
  constructor.
Qed.

Lemma reason_tests17_messages (i : Credit17.Inputs) :
  map snd (reason_tests17 i) = messages17.
Proof. reflexivity. Qed.

Lemma reason_tests17_reflects (i : Credit17.Inputs) :
  reflects (reason_tests17 i) (reason_conditions17 i).
Proof.
  unfold reason_tests17, reason_conditions17.
  change (notes17 i ++ ?l) with (hd (false, "") (notes17 i) :: l).
  repeat (apply Forall2_cons;
          [split; [cbn [fst snd hd notes17]; unfold low_score_no_smet17,
                     adverse_credit17, over_limit_exposure17;
                   autorewrite with tests; reflexivity | reflexivity]|]).
  apply reflects_guard; [|apply referrals17_reflects].
  rewrite negb_true_iff, <- not_true_iff_false, declines17_any. reflexivity.
Qed.

Lemma run_decision17_reasons (limits_df : list Tier) (i : Credit17.Inputs) :
  Credit17.contract_term i <> 0 ->
  exists d a,
    Credit17.run_decision limits_df i = Return (d, a, fired (reason_tests17 i))
    /\ (d = "Declined" /\ a = None /\ declined17 i
        \/ d = "Approved" /\ a = Some (resolved17 limits_df i) /\ ~ declined17 i).
Proof.
  intros Hterm. rewrite (run_decision17 _ _ Hterm). cbv zeta.
  fold (exposure17 i). unfold reason_tests17. rewrite !fired_app.
  pose proof (declines17_any i) as Hany. fold (declined17 i) in Hany.
  destruct (any_fired (declines17 i (exposure17 i))) eqn:E.
  - assert (fired (map (fun t => (negb true && fst t, snd t)) (referrals17 i)) = [])
      as Hnone by reflexivity.
    rewrite Hnone, app_nil_r.
    do 2 eexists. split; [reflexivity|].
    left. repeat split. now apply Hany.
  - assert (map (fun t : bool * string => (negb false && fst t, snd t)) (referrals17 i)
            = referrals17 i) as Hall.
    { rewrite map_ext with (g := fun t => t); [apply map_id | now intros [b m]]. }
    apply any_fired_nil_iff in E. rewrite Hall, E. cbn [app].
    do 2 eexists. split; [reflexivity|].
    right. repeat split. intros H. apply Hany in H. discriminate.
Qed.

(** X1: Credit17.py returns Declined or Approved and nothing else, and
    Declined exactly when one of the three decline conditions holds. *)
Theorem declined_iff_decline_condition17 (limits_df : list Tier) (i : Credit17.Inputs) :
  Credit17.contract_term i <> 0 ->
  exists d a rs,
    Credit17.run_decision limits_df i = Return (d, a, rs)
    /\ (d = "Declined" \/ d = "Approved")
    /\ (d = "Declined" <-> declined17 i).
Proof.
  intros Hterm.
  destruct (run_decision17_reasons limits_df i Hterm) as (d & a & Hrun & Hcase).
  exists d, a, (fired (reason_tests17 i)). split; [exact Hrun|].
  destruct Hcase as [(-> & _ & Hd) | (-> & _ & Hd)].
  - split; [now left | tauto].
  - split; [now right|]. split; [discriminate | tauto].
Qed.

Lemma declined_iff_decline_condition17_witness :
  exists d a rs,
    Credit17.run_decision sample_matrix two_referrals17 = Return (d, a, rs)
    /\ (d = "Declined" \/ d = "Approved")
    /\ (d = "Declined" <-> declined17 two_referrals17).
Proof.
  apply (declined_iff_decline_condition17 sample_matrix two_referrals17).
  discriminate.
Defined.

(** X2: a reason is in the list Credit17.py returns exactly when its
    condition holds: a decline reason when its decline condition does, the
    Yu Energy note when the score is below 30 and the meter compatible
    (declined or not), a referral reason when its condition holds and the
    application is not declined. *)
Theorem reason_iff_condition17 (limits_df : list Tier) (i : Credit17.Inputs) :
  Credit17.contract_term i <> 0 ->
  exists d a rs,
    Credit17.run_decision limits_df i = Return (d, a, rs)
    /\ forall m,
        In m rs <-> Exists (fun c => fst c /\ snd c = m) (reason_conditions17 i).
Proof.
  intros Hterm.
  destruct (run_decision17_reasons limits_df i Hterm) as (d & a & Hrun & _).
  exists d, a, (fired (reason_tests17 i)). split; [exact Hrun|].
  intros m. apply reflects_In, reason_tests17_reflects.
Qed.

Lemma reason_iff_condition17_witness :
  exists d a rs,
    Credit17.run_decision sample_matrix over_limit17 = Return (d, a, rs)
    /\ forall m,
        In m rs <-> Exists (fun c => fst c /\ snd c = m) (reason_conditions17 over_limit17).
Proof.
  apply (reason_iff_condition17 sample_matrix over_limit17). discriminate.
Defined.

(** X3: the reasons Credit17.py returns stand in the order of its
    statements (decline reasons, the Yu Energy note, referral reasons) and
    none stands twice. *)
Theorem reasons_in_order17 (limits_df : list Tier) (i : Credit17.Inputs) :
  Credit17.contract_term i <> 0 ->
  exists d a rs,
    Credit17.run_decision limits_df i = Return (d, a, rs)
    /\ rs = filter (fun m => mem m rs) messages17
    /\ NoDup rs.
Proof.
  intros Hterm.
  destruct (run_decision17_reasons limits_df i Hterm) as (d & a & Hrun & _).
  exists d, a, (fired (reason_tests17 i)). split; [exact Hrun|].
  pose proof messages17_NoDup as Hnodup.
  rewrite <- (reason_tests17_messages i) in Hnodup.
  pose proof (fired_in_order _ Hnodup) as Horder.
  split.
  - rewrite Horder at 1. now rewrite reason_tests17_messages.
  - rewrite Horder. apply NoDup_filter. exact Hnodup.
Qed.

Lemma reasons_in_order17_witness :
  exists d a rs,
    Credit17.run_decision sample_matrix two_referrals17 = Return (d, a, rs)
    /\ rs = filter (fun m => mem m rs) messages17
    /\ NoDup rs.
Proof.
  apply (reasons_in_order17 sample_matrix two_referrals17). discriminate.
Defined.

(** ** credit4.py: the verdict and the reasons, exactly *)

Lemma messages4_NoDup : NoDup messages4.
Proof.
  unfold messages4, Credit4.md_notice.
  repeat (constructor; [cbn [In]; intuition discriminate|]).
  constructor.
Qed.

Lemma reason_tests4_messages (matrix_df : list Tier) (i : Credit4.Inputs) :
  map snd (reason_tests4 matrix_df i) = messages4.
Proof. reflexivity. Qed.

Lemma score_tests4_reflects (i : Credit4.Inputs) :
  reflects (score_tests4 i) (score_conditions4 i).
Proof.
  unfold reflects, score_tests4, score_conditions4, yu_energy_only4,
    score_declines4, referral_band4.
  repeat (apply Forall2_cons; [split; [cbn [fst snd] | reflexivity]|]);
    [| | |apply Forall2_nil].
  - autorewrite with tests. reflexivity.
  - rewrite andb_true_iff, negb_true_iff, <- not_true_iff_false.
    autorewrite with tests. reflexivity.
  - rewrite andb_true_iff, negb_true_iff, Z.ltb_ge.
    autorewrite with tests. lia.
Qed.

Lemma credit_checks4_fired (i : Credit4.Inputs) :
  reasons (Credit4.credit_checks i start) = fired (score_tests4 i).
Proof.
  unfold Credit4.credit_checks, score_tests4.
  destruct (Credit4.credit_score i <? Credit4.refer_threshold i);
    destruct ((Credit4.credit_score i <? 30) && str_eq (Credit4.smet_compatible i) "Yes");
    try reflexivity;
    destruct ((Credit4.refer_threshold i <=? Credit4.credit_score i)
              && (Credit4.credit_score i <? Credit4.approve_threshold i));
    reflexivity.
Qed.

Lemma settle_approver_fired (matrix_df : list Tier) (i : Credit4.Inputs) :
  reasons (snd (Credit4.settle_approver (scanned4 matrix_df i) (referred4 i)))
  = reasons (referred4 i) ++ fired [(notice_test4 matrix_df i, Credit4.md_notice)].
Proof.
  unfold Credit4.settle_approver, notice_test4.
  destruct (str_eq (decision (referred4 i)) "Approved with Yu Energy Only");
    [cbn; now rewrite app_nil_r|].
  destruct (str_eq (decision (referred4 i)) "Declined");
    [cbn; now rewrite app_nil_r|].
  destruct (str_eq (scanned4 matrix_df i) "Managing Director"); cbn;
    [reflexivity | now rewrite app_nil_r].
Qed.

Lemma run_decision4_reasons (now : string) (matrix_df : list Tier) (i : Credit4.Inputs) :
  Credit4.contract_term i <> 0 ->
  exists r,
    Credit4.run_decision now matrix_df i = Return r
    /\ Credit4.recommendation r = decision (referred4 i)
    /\ Credit4.result_reasons r = fired (reason_tests4 matrix_df i).
Proof.
  intros Hterm. rewrite (run_decision4 _ _ _ Hterm). cbv zeta.
  eexists. split; [reflexivity|]. split; [reflexivity|].
  cbn [Credit4.result_reasons].
  rewrite settle_approver_fired, referred4_reasons, credit_checks4_fired.
  unfold reason_tests4. now rewrite !fired_app, app_assoc.
Qed.

Lemma referred_by_checks4_dec (i : Credit4.Inputs) :
  referred_by_checks4 i \/ ~ referred_by_checks4 i.
Proof.
  unfold referred_by_checks4.
  rewrite <- (reflects_any _ _ (referrals4_reflects i)).
  destruct (any_fired (referrals4 i)); [now left | right; discriminate].
Qed.

(** The verdict of the score check alone, by cases on the score. *)
Lemma credit_checks4_cases (i : Credit4.Inputs) :
  let d := decision (Credit4.credit_checks i start) in
  yu_energy_only4 i /\ d = "Approved with Yu Energy Only"
  \/ score_declines4 i /\ d = "Declined"
  \/ referral_band4 i /\ d = "Refer"
  \/ (Credit4.refer_threshold i <= Credit4.credit_score i
      /\ Credit4.approve_threshold i <= Credit4.credit_score i) /\ d = "Approved".
Proof.
  cbv zeta.
  destruct (Z.lt_ge_cases (Credit4.credit_score i) (Credit4.refer_threshold i))
    as [Hlow | Hrefer].
  - destruct ((Credit4.credit_score i <? 30) && str_eq (Credit4.smet_compatible i) "Yes")
      eqn:E.
    + revert E. autorewrite with tests. intros [H30 Hsmet].
      left. split; [now repeat split|].
      now rewrite credit_checks4_restricted.
    + right; left.
      assert (score_declines4 i) as Hd.
      { split; [exact Hlow|]. intros [H30 Hsmet].
        apply not_true_iff_false in E. apply E.
        autorewrite with tests. now split. }
      split; [exact Hd | now rewrite credit_checks4_declined].
  - destruct (Z.lt_ge_cases (Credit4.credit_score i) (Credit4.approve_threshold i))
      as [Hband | Happrove].
    + right; right; left. split; [now split|].
      rewrite credit_checks4_band; [reflexivity | now split].
    + right; right; right. split; [now split|].
      now rewrite credit_checks4_approved.
Qed.

(** X4: credit4.py returns one of its four verdicts, by this table: Refer
    exactly when a referral check holds or the score lies from the referral
    threshold up to the approval threshold; Declined exactly when no
    referral check holds and the score is below the referral threshold
    without the low-score, compatible-meter exception; the restricted
    approval exactly when no referral check holds and that exception
    applies; Approved exactly when no referral check holds and the score
    reaches both thresholds. *)
Theorem verdict_table4 (now : string) (matrix_df : list Tier) (i : Credit4.Inputs) :
  Credit4.contract_term i <> 0 ->
  exists r,
    Credit4.run_decision now matrix_df i = Return r
    /\ (Credit4.recommendation r = "Refer"
        <-> referred_by_checks4 i \/ referral_band4 i)
    /\ (Credit4.recommendation r = "Declined"
        <-> ~ referred_by_checks4 i /\ score_declines4 i)
    /\ (Credit4.recommendation r = "Approved with Yu Energy Only"
        <-> ~ referred_by_checks4 i /\ yu_energy_only4 i)
    /\ (Credit4.recommendation r = "Approved"
        <-> ~ referred_by_checks4 i
            /\ Credit4.refer_threshold i <= Credit4.credit_score i
            /\ Credit4.approve_threshold i <= Credit4.credit_score i).
Proof.
  intros Hterm.
  destruct (run_decision4_reasons now matrix_df i Hterm) as (r & Hrun & Hd & _).
  exists r. split; [exact Hrun|]. rewrite Hd, referred4_decision.
  pose proof (reflects_any _ _ (referrals4_reflects i)) as Hany.
  fold (referred_by_checks4 i) in Hany.
  unfold yu_energy_only4, score_declines4, referral_band4 in *.
  destruct (any_fired (referrals4 i)).
  - assert (referred_by_checks4 i) as Href by now apply Hany.
    repeat split; try discriminate; try tauto.
  - assert (~ referred_by_checks4 i) as Href
      by (intros H; apply Hany in H; discriminate).
    destruct (credit_checks4_cases i) as [[Hc ->] | [[Hc ->] | [[Hc ->] | [Hc ->]]]];
      unfold yu_energy_only4, score_declines4, referral_band4 in Hc;
      repeat split; try discriminate; try tauto; try lia;
      intros; exfalso; intuition lia.
Qed.

Lemma verdict_table4_witness :
  exists r,
    Credit4.run_decision "2025-07-01 09:00:00" sample_matrix score_70_clean4 = Return r
    /\ (Credit4.recommendation r = "Refer"
        <-> referred_by_checks4 score_70_clean4 \/ referral_band4 score_70_clean4)
    /\ (Credit4.recommendation r = "Declined"
        <-> ~ referred_by_checks4 score_70_clean4 /\ score_declines4 score_70_clean4)
    /\ (Credit4.recommendation r = "Approved with Yu Energy Only"
        <-> ~ referred_by_checks4 score_70_clean4 /\ yu_energy_only4 score_70_clean4)
    /\ (Credit4.recommendation r = "Approved"
        <-> ~ referred_by_checks4 score_70_clean4
            /\ Credit4.refer_threshold score_70_clean4 <= Credit4.credit_score score_70_clean4
            /\ Credit4.approve_threshold score_70_clean4
               <= Credit4.credit_score score_70_clean4).
Proof.
  apply (verdict_table4 "2025-07-01 09:00:00" sample_matrix score_70_clean4).
  discriminate.
Defined.

Lemma notice_test4_iff (matrix_df : list Tier) (i : Credit4.Inputs) :
  notice_test4 matrix_df i = true
  <-> (decision (referred4 i) = "Approved" \/ decision (referred4 i) = "Refer")
      /\ scanned4 matrix_df i = "Managing Director".
Proof.
  unfold notice_test4.
  rewrite !andb_true_iff, !negb_true_iff, str_eq_iff.
  destruct (referred4_verdicts i) as [Hd | [Hd | [Hd | Hd]]]; cbv zeta in Hd;
    rewrite Hd; cbn; intuition discriminate.
Qed.

Lemma reason_tests4_reflects (matrix_df : list Tier) (i : Credit4.Inputs) :
  reflects (reason_tests4 matrix_df i)
    (score_conditions4 i ++ referral_conditions4 i
     ++ [((decision (referred4 i) = "Approved" \/ decision (referred4 i) = "Refer")
          /\ scanned4 matrix_df i = "Managing Director",
          Credit4.md_notice)]).
Proof.
  unfold reason_tests4.
  apply reflects_app; [apply score_tests4_reflects|].
  apply reflects_app; [apply referrals4_reflects|].
  apply Forall2_cons; [|apply Forall2_nil].
  split; [apply notice_test4_iff | reflexivity].
Qed.

(** X5: a reason is in the list credit4.py returns exactly when its
    condition holds: one of the three score messages by the score, a
    referral message when its check holds (whatever the score check
    decided), and the Managing Director notice when the verdict is Approved
    or Refer and the matrix scan gives "Managing Director". *)
Theorem reason_iff_condition4 (now : string) (matrix_df : list Tier) (i : Credit4.Inputs) :
  Credit4.contract_term i <> 0 ->
  exists r,
    Credit4.run_decision now matrix_df i = Return r
    /\ forall m,
        In m (Credit4.result_reasons r)
        <-> Exists (fun c => fst c /\ snd c = m)
              (score_conditions4 i ++ referral_conditions4 i
               ++ [((Credit4.recommendation r = "Approved"
                     \/ Credit4.recommendation r = "Refer")
                    /\ scanned4 matrix_df i = "Managing Director",
                    Credit4.md_notice)]).
Proof.
  intros Hterm.
  destruct (run_decision4_reasons now matrix_df i Hterm) as (r & Hrun & Hd & Hrs).
  exists r. split; [exact Hrun|]. intros m. rewrite Hrs, Hd.
  apply reflects_In, reason_tests4_reflects.
Qed.

Lemma reason_iff_condition4_witness :
  exists r,
    Credit4.run_decision "2025-07-01 09:00:00" sample_matrix three_referrals4 = Return r
    /\ forall m,
        In m (Credit4.result_reasons r)
        <-> Exists (fun c => fst c /\ snd c = m)
              (score_conditions4 three_referrals4 ++ referral_conditions4 three_referrals4
               ++ [((Credit4.recommendation r = "Approved"
                     \/ Credit4.recommendation r = "Refer")
                    /\ scanned4 sample_matrix three_referrals4 = "Managing Director",
                    Credit4.md_notice)]).
Proof.
  apply (reason_iff_condition4 "2025-07-01 09:00:00" sample_matrix three_referrals4).
  discriminate.
Defined.

(** X6: the reasons credit4.py returns stand in the order of its
    statements (the score message, the referral messages, the Managing
    Director notice), none stands twice, and the notice, when it is there,
    is the last one. *)
Theorem reasons_in_order4 (now : string) (matrix_df : list Tier) (i : Credit4.Inputs) :
  Credit4.contract_term i <> 0 ->
  exists r,
    Credit4.run_decision now matrix_df i = Return r
    /\ Credit4.result_reasons r
       = filter (fun m => mem m (Credit4.result_reasons r)) messages4
    /\ NoDup (Credit4.result_reasons r)
    /\ (In Credit4.md_notice (Credit4.result_reasons r) ->
        exists front, Credit4.result_reasons r = front ++ [Credit4.md_notice]).
Proof.
  intros Hterm.
  destruct (run_decision4_reasons now matrix_df i Hterm) as (r & Hrun & _ & Hrs).
  exists r. split; [exact Hrun|]. rewrite Hrs.
  pose proof messages4_NoDup as Hnodup.
  rewrite <- (reason_tests4_messages matrix_df i) in Hnodup.
  pose proof (fired_in_order _ Hnodup) as Horder.
  split; [|split].
  - rewrite Horder at 1. now rewrite reason_tests4_messages.
  - rewrite Horder. apply NoDup_filter. exact Hnodup.
  - unfold reason_tests4. rewrite app_assoc, fired_app.
    destruct (notice_test4 matrix_df i).
    + intros _. now eexists.
    + unfold fired at 2. cbn [filter fst map]. rewrite app_nil_r.
      intros Hin. exfalso. apply fired_incl in Hin. revert Hin.
      rewrite map_app. change (map snd (score_tests4 i)) with (firstn 3 messages4).
      change (map snd (referrals4 i)) with (firstn 5 (skipn 3 messages4)).
      unfold messages4, Credit4.md_notice. cbn [firstn skipn app In].
      intuition discriminate.
Qed.

Lemma reasons_in_order4_witness :
  exists r,
    Credit4.run_decision "2025-07-01 09:00:00" [] three_referrals4 = Return r
    /\ Credit4.result_reasons r
       = filter (fun m => mem m (Credit4.result_reasons r)) messages4
    /\ NoDup (Credit4.result_reasons r)
    /\ (In Credit4.md_notice (Credit4.result_reasons r) ->
        exists front, Credit4.result_reasons r = front ++ [Credit4.md_notice]).
Proof.
  apply (reasons_in_order4 "2025-07-01 09:00:00" [] three_referrals4). discriminate.
Defined.

(** ** What the decision does not read *)

(** X7: the sidebar's "Max Payment Terms (Days)" is never read by
    credit4.py's run_decision, and the SMET answer is read only for a score
    below 30: a call with any other maximum, and with any other SMET answer
    when the score is 30 or more, returns the same result. *)
Theorem unread_inputs4 (now : string) (matrix_df : list Tier) (i : Credit4.Inputs)
  (smet : string) (days : Z) :
  Credit4.run_decision now matrix_df
    (with_form4 i (Credit4.sic_risk i) (Credit4.smet_compatible i) days)
  = Credit4.run_decision now matrix_df i
  /\ (30 <= Credit4.credit_score i ->
      Credit4.run_decision now matrix_df (with_form4 i (Credit4.sic_risk i) smet days)
      = Credit4.run_decision now matrix_df i).
Proof.
  split; [reflexivity|].
  intros Hscore. unfold Credit4.run_decision, Credit4.credit_checks.
  cbn [with_form4 Credit4.credit_score Credit4.refer_threshold Credit4.smet_compatible
       Credit4.approve_threshold].
  assert ((Credit4.credit_score i <? 30) = false) as H30 by (apply Z.ltb_ge; exact Hscore).
  rewrite H30. reflexivity.
Qed.

Lemma unread_inputs4_witness :
  Credit4.run_decision "2025-07-01 09:00:00" sample_matrix
    (with_form4 three_referrals4 "High" "Yes" 90)
  = Credit4.run_decision "2025-07-01 09:00:00" sample_matrix three_referrals4
  /\ Credit4.run_decision "2025-07-01 09:00:00" sample_matrix
       (with_form4 three_referrals4 "High" "No" 90)
     = Credit4.run_decision "2025-07-01 09:00:00" sample_matrix three_referrals4.
Proof.
  destruct (unread_inputs4 "2025-07-01 09:00:00" sample_matrix three_referrals4 "No" 90)
    as [Hdays Hsmet].
  split; [exact Hdays | apply Hsmet; discriminate].
Defined.

(** X8: Credit17.py reads the SMET answer only for a score below 30: with
    a score of 30 or more every answer gives the same result. *)
Theorem smet_unread_above_30 (limits_df : list Tier) (i : Credit17.Inputs) (smet : string) :
  30 <= Credit17.creditsafe_score i ->
  Credit17.run_decision limits_df (with_smet17 i smet) = Credit17.run_decision limits_df i.
Proof.
  intros Hscore.
  unfold Credit17.run_decision, Credit17.three_month_exposure,
    Credit17.decline_checks, Credit17.yu_energy_note.
  cbn [with_smet17 Credit17.creditsafe_score Credit17.smet_compatible
       Credit17.contract_value Credit17.contract_term Credit17.has_ccjs
       Credit17.recommended_limit].
  assert ((Credit17.creditsafe_score i <? 30) = false) as H30
    by (apply Z.ltb_ge; exact Hscore).
  rewrite H30. reflexivity.
Qed.

Lemma smet_unread_above_30_witness :
  Credit17.run_decision sample_matrix (with_smet17 two_referrals17 "No")
  = Credit17.run_decision sample_matrix two_referrals17.
Proof.
  apply (smet_unread_above_30 sample_matrix two_referrals17 "No"). discriminate.
Defined.

(** ** The approver resolver over a table in two parts *)

Lemma get_required_approver_keep pre post sites spend volume :
  Exists (fun r => dominates r sites spend volume) pre ->
  Credit17.get_required_approver (pre ++ post) sites spend volume
  = Credit17.get_required_approver pre sites spend volume.
Proof.
  induction pre as [|row pre IH]; intros Hsome; [inversion Hsome|].
  cbn. destruct (tier_covers sites spend volume row) eqn:E; [reflexivity|].
  apply IH. inversion Hsome as [r rs Hrow | r rs Hrest]; subst; [|exact Hrest].
  apply tier_covers_iff in Hrow. congruence.
Qed.

(** X9: rows added below the table never change the approver of an
    application some row already covers, and rows that do not cover an
    application, added above, never change its approver; the same holds
    for the loop of credit4.py. *)
Theorem approver_of_joined_tables (pre post : list Tier) (sites : Z) (spend volume : Q) :
  (Exists (fun r => dominates r sites spend volume) pre ->
   Credit17.get_required_approver (pre ++ post) sites spend volume
   = Credit17.get_required_approver pre sites spend volume
   /\ Credit4.matrix_scan (pre ++ post) "Managing Director" sites spend volume
      = Credit4.matrix_scan pre "Managing Director" sites spend volume)
  /\ (Forall (fun r => ~ dominates r sites spend volume) pre ->
      Credit17.get_required_approver (pre ++ post) sites spend volume
      = Credit17.get_required_approver post sites spend volume
      /\ Credit4.matrix_scan (pre ++ post) "Managing Director" sites spend volume
         = Credit4.matrix_scan post "Managing Director" sites spend volume).
Proof.
  rewrite !matrix_scan_get_required_approver. split; intros H; split;
    first [now apply get_required_approver_keep | now apply get_required_approver_skip].
Qed.

Lemma approver_of_joined_tables_witness :
  Credit17.get_required_approver
    (sample_matrix ++ [tier 100 1000000 9000000 "Board"]) 3 40000 50000
  = Credit17.get_required_approver sample_matrix 3 40000 50000
  /\ Credit17.get_required_approver
       ([tier 1 100 100 "Junior"] ++ sample_matrix) 3 40000 50000
     = Credit17.get_required_approver sample_matrix 3 40000 50000.
Proof.
  split.
  - apply (proj1 (approver_of_joined_tables sample_matrix
                    [tier 100 1000000 9000000 "Board"] 3 40000 50000)).
    right; left. unfold dominates; cbn; repeat split; [lia | discriminate | discriminate].
  - apply (proj2 (approver_of_joined_tables [tier 1 100 100 "Junior"]
                    sample_matrix 3 40000 50000)).
    repeat constructor. unfold dominates; cbn. lia.
Defined.

(** X10: the resolver returns "Managing Director" or the role of a row of
    the table; a role other than "Managing Director" always comes from a
    row whose three ceilings dominate the application's values; and when
    no row's ceilings do, the role is "Managing Director". *)
Theorem approver_comes_from_covering_row (tiers : list Tier)
  (sites : Z) (spend volume : Q) :
  let approver := Credit17.get_required_approver tiers sites spend volume in
  In approver ("Managing Director" :: map role tiers)
  /\ (approver <> "Managing Director" ->
      exists row, In row tiers /\ dominates row sites spend volume /\ role row = approver)
  /\ ((forall row, In row tiers -> ~ dominates row sites spend volume) ->
      approver = "Managing Director").
Proof.
  cbv zeta. induction tiers as [|row tiers (IHin & IHrow & IHnone)]; cbn [map].
  - cbn. repeat split; [now left | intros H; now elim H].
  - cbn [Credit17.get_required_approver].
    destruct (tier_covers sites spend volume row) eqn:E.
    + apply tier_covers_iff in E. repeat split.
      * right; now left.
      * intros _. exists row. repeat split; [now left | apply E..].
      * intros Hnone. exfalso. apply (Hnone row); [now left | exact E].
    + repeat split.
      * destruct IHin as [H | H]; [now left | right; now right].
      * intros Hne. destruct (IHrow Hne) as (r & Hin & Hdom & Hrole).
        exists r. split; [now right | now split].
      * intros Hnone. apply IHnone. intros r Hin. apply Hnone. now right.
Qed.

Lemma approver_comes_from_covering_row_witness :
  exists row,
    In row sample_matrix /\ dominates row 3 40000 50000
    /\ role row = Credit17.get_required_approver sample_matrix 3 40000 50000.
Proof.
  apply (proj1 (proj2 (approver_comes_from_covering_row sample_matrix 3 40000 50000))).
  discriminate.
Defined.

(** ** The SIC code lookup *)

Lemma sic_filter_first (pre post : list SicRow) (row : SicRow) (code : string) :
  Forall (fun r => SIC_Code r <> code) pre -> SIC_Code row = code ->
  exists rest,
    filter (fun r => str_eq (SIC_Code r) code) (pre ++ row :: post) = row :: rest.
Proof.
  intros Hpre Hrow. induction Hpre as [|r pre Hr _ IH]; cbn.
  - apply str_eq_iff in Hrow. rewrite Hrow. now eexists.
  - apply String.eqb_neq in Hr. unfold str_eq at 1. rewrite Hr. exact IH.
Qed.

Lemma sic_filter_none (sic_df : list SicRow) (code : string) :
  Forall (fun r => SIC_Code r <> code) sic_df ->
  filter (fun r => str_eq (SIC_Code r) code) sic_df = [].
Proof.
  induction 1 as [|r rest Hr _ IH]; cbn; [reflexivity|].
  apply String.eqb_neq in Hr. unfold str_eq at 1. now rewrite Hr.
Qed.

Lemma sic_lookup_blank (sic_df : list SicRow) (manual_risk : string) :
  sic_lookup sic_df "" manual_risk = ("Unknown", "Medium").
Proof. reflexivity. Qed.

Lemma sic_lookup_missing (sic_df : list SicRow) (sic_code manual_risk : string) :
  sic_code <> "" ->
  Forall (fun r => SIC_Code r <> sic_code) sic_df ->
  sic_lookup sic_df sic_code manual_risk = ("Unknown", manual_risk).
Proof.
  intros Hcode Hnone. unfold sic_lookup.
  apply str_ne_iff in Hcode. rewrite Hcode. now rewrite sic_filter_none.
Qed.

(** X11: the SIC lookup of both scripts.  A blank code gives ("Unknown",
    "Medium") whatever the table and the manual rating hold; a code in the
    table gives the description and the rating of its first row, the
    manual rating being ignored; a code that is in no row gives "Unknown"
    and the manual rating. *)
Theorem sic_lookup_cases (sic_df : list SicRow) (sic_code manual_risk : string) :
  (sic_code = "" -> sic_lookup sic_df sic_code manual_risk = ("Unknown", "Medium"))
  /\ (sic_code <> "" ->
      forall pre row post,
        sic_df = pre ++ row :: post ->
        Forall (fun r => SIC_Code r <> sic_code) pre ->
        SIC_Code row = sic_code ->
        sic_lookup sic_df sic_code manual_risk
        = (SIC_Description row, Typical_Risk_Rating row))
  /\ (sic_code <> "" ->
      Forall (fun r => SIC_Code r <> sic_code) sic_df ->
      sic_lookup sic_df sic_code manual_risk = ("Unknown", manual_risk)).
Proof.
  unfold sic_lookup. repeat split.
  - now intros ->.
  - intros Hcode pre row post -> Hpre Hrow.
    apply str_ne_iff in Hcode. rewrite Hcode.
    destruct (sic_filter_first pre post row sic_code Hpre Hrow) as [rest ->].
    reflexivity.
  - intros Hcode Hnone. fold (sic_lookup sic_df sic_code manual_risk).
    now apply sic_lookup_missing.
Qed.

Lemma sic_lookup_cases_witness :
  sic_lookup sample_sic "56101" "Low" = ("Licensed restaurants", "High")
  /\ sic_lookup sample_sic "99999" "Very High" = ("Unknown", "Very High").
Proof.
  split.
  - apply (proj1 (proj2 (sic_lookup_cases sample_sic "56101" "Low")))
      with (pre := firstn 1 sample_sic) (post := skipn 2 sample_sic)
           (row := {| SIC_Code := "56101"; SIC_Description := "Licensed restaurants";
                      Typical_Risk_Rating := "High" |});
      [discriminate | reflexivity | | reflexivity].
    repeat constructor. discriminate.
  - apply (proj2 (proj2 (sic_lookup_cases sample_sic "99999" "Very High")));
      [discriminate|].
    repeat constructor; discriminate.
Defined.

Lemma sector_reason17 (limits_df : list Tier) (i : Credit17.Inputs) (risk : string) :
  Credit17.contract_term i <> 0 ->
  exists d a rs,
    Credit17.run_decision limits_df (with_sic_risk17 i risk) = Return (d, a, rs)
    /\ (In "Referral: High sector risk." rs
        <-> d <> "Declined" /\ (risk = "High" \/ risk = "Very High")).
Proof.
  intros Hterm.
  destruct (run_decision17_reasons limits_df (with_sic_risk17 i risk) Hterm)
    as (d & a & Hrun & Hcase).
  exists d, a, (fired (reason_tests17 (with_sic_risk17 i risk))).
  split; [exact Hrun|].
  rewrite (reflects_In _ _ _ (reason_tests17_reflects (with_sic_risk17 i risk))).
  unfold reason_conditions17, referral_conditions17.
  cbn [map app fst snd with_sic_risk17 Credit17.sic_risk].
  rewrite !Exists_cons, Exists_nil. cbn [fst snd].
  assert (d <> "Declined" <-> ~ declined17 (with_sic_risk17 i risk)) as Hd.
  { destruct Hcase as [(-> & _ & H) | (-> & _ & H)]; split; try tauto; discriminate. }
  rewrite Hd. split.
  - intros H.
    repeat (destruct H as [[Hc He] | H]; [try discriminate He; try tauto|]).
    elim H.
  - intros [Hnd Hrisk]. do 5 right. left. tauto.
Qed.

(** X12: the lookup and the decision together.  With a blank SIC code
    neither script records its sector-risk reason, whatever the table and
    the manual rating hold; with a code that is in no row of the table,
    Credit17.py records "Referral: High sector risk." exactly when the
    manual rating is High or Very High and the application is not
    declined, and credit4.py records "SIC Risk too high" exactly when the
    manual rating is High or Very High. *)
Theorem sector_risk_after_lookup
  (sic_df : list SicRow) (sic_code manual_risk : string)
  (limits_df : list Tier) (i17 : Credit17.Inputs)
  (now : string) (matrix_df : list Tier) (i4 : Credit4.Inputs) :
  Credit17.contract_term i17 <> 0 ->
  Credit4.contract_term i4 <> 0 ->
  let risk := snd (sic_lookup sic_df sic_code manual_risk) in
  exists d a rs r,
    Credit17.run_decision limits_df (with_sic_risk17 i17 risk) = Return (d, a, rs)
    /\ Credit4.run_decision now matrix_df
         (with_form4 i4 risk (Credit4.smet_compatible i4) (Credit4.max_days_to_pay i4))
       = Return r
    /\ (sic_code = "" ->
        ~ In "Referral: High sector risk." rs
        /\ ~ In "SIC Risk too high" (Credit4.result_reasons r))
    /\ (sic_code <> "" -> Forall (fun row => SIC_Code row <> sic_code) sic_df ->
        (In "Referral: High sector risk." rs
         <-> d <> "Declined" /\ (manual_risk = "High" \/ manual_risk = "Very High"))
        /\ (In "SIC Risk too high" (Credit4.result_reasons r)
            <-> manual_risk = "High" \/ manual_risk = "Very High")).
Proof.
  intros Hterm17 Hterm4. cbv zeta.
  set (risk := snd (sic_lookup sic_df sic_code manual_risk)).
  destruct (sector_reason17 limits_df i17 risk Hterm17) as (d & a & rs & Hrun17 & H17).
  set (j4 := with_form4 i4 risk (Credit4.smet_compatible i4) (Credit4.max_days_to_pay i4)).
  destruct (run_decision4_reasons now matrix_df j4 Hterm4) as (r & Hrun4 & _ & Hrs).
  assert (In "SIC Risk too high" (Credit4.result_reasons r)
          <-> risk = "High" \/ risk = "Very High") as Hsic.
  { rewrite Hrs, (reflects_In _ _ _ (reason_tests4_reflects matrix_df j4)).
    unfold score_conditions4, referral_conditions4.
    cbn [app fst snd]. rewrite !Exists_cons, Exists_nil. cbn [fst snd].
    unfold Credit4.md_notice. subst j4. cbn [with_form4 Credit4.sic_risk]. split.
    - intros H.
      repeat (destruct H as [[Hc He] | H]; [try discriminate He; try tauto|]).
      elim H.
    - intros H. do 6 right. left. tauto. }
  exists d, a, rs, r. split; [exact Hrun17|]. split; [exact Hrun4|].
  split.
  - intros Hcode. rewrite H17, Hsic. subst risk sic_code.
    rewrite sic_lookup_blank. cbn [snd].
    split; intros H; [destruct H as [_ H]|]; destruct H as [H | H]; discriminate H.
  - intros Hcode Hnone. rewrite H17, Hsic. subst risk.
    rewrite (sic_lookup_missing _ _ _ Hcode Hnone). cbn [snd]. split; reflexivity.
Qed.

Lemma sector_risk_after_lookup_witness :
  exists d a rs r,
    Credit17.run_decision sample_matrix
      (with_sic_risk17 clean17 (snd (sic_lookup sample_sic "99999" "Very High")))
    = Return (d, a, rs)
    /\ Credit4.run_decision "2025-07-01 09:00:00" sample_matrix
         (with_form4 clean4 (snd (sic_lookup sample_sic "99999" "Very High"))
            (Credit4.smet_compatible clean4) (Credit4.max_days_to_pay clean4))
       = Return r
    /\ In "SIC Risk too high" (Credit4.result_reasons r).
Proof.
  destruct (sector_risk_after_lookup sample_sic "99999" "Very High"
              sample_matrix clean17 "2025-07-01 09:00:00" sample_matrix clean4)
    as (d & a & rs & r & Hrun17 & Hrun4 & _ & Hmiss); [discriminate | discriminate |].
  exists d, a, rs, r. split; [exact Hrun17|]. split; [exact Hrun4|].
  apply Hmiss; [discriminate | repeat constructor; discriminate | now right].
Defined.

(** ** The texts of a list of calls *)












Lemma truthy_Some (a : string) : truthy (Some a) = true <-> a <> "".
Proof. apply str_ne_iff. Qed.

(** ** Credit17.py: the result on screen and in the report *)






(** ** credit4.py: the result on screen and in the report *)






Lemma approver4_cases (now : string) (matrix_df : list Tier) (i : Credit4.Inputs) :
  Credit4.contract_term i <> 0 ->
  exists r,
    Credit4.run_decision now matrix_df i = Return r
    /\ (Credit4.recommendation r = "Declined" /\ Credit4.approver r = None
        \/ Credit4.recommendation r = "Approved with Yu Energy Only"
           /\ Credit4.approver r = Some "Yu Energy Only"
        \/ (Credit4.recommendation r = "Approved" \/ Credit4.recommendation r = "Refer")
           /\ Credit4.approver r = Some (scanned4 matrix_df i)).
Proof.
  intros Hterm. rewrite (run_decision4 _ _ _ Hterm). cbv zeta.
  eexists. split; [reflexivity|]. cbn [Credit4.recommendation Credit4.approver].
  destruct (settle_approver_cases (scanned4 matrix_df i) (referred4 i))
    as (Hyu & Hdecl & Hrole).
  destruct (referred4_verdicts i) as [Hd | [Hd | [Hd | Hd]]]; cbv zeta in Hd.
  - right; right. rewrite Hrole by tauto. split; [now left | reflexivity].
  - right; right. rewrite Hrole by tauto. split; [now right | reflexivity].
  - left. rewrite (Hdecl Hd). now split.
  - right; left. rewrite (Hyu Hd). now split.
Qed.



(** ** Credit17.py: better credit data *)

Lemma declined17_with_credit (i : Credit17.Inputs) (score limit : Z) :
  Credit17.creditsafe_score i <= score -> Credit17.recommended_limit i <= limit ->
  declined17 (with_credit17 i score limit) -> declined17 i.
Proof.
  intros Hscore Hlimit.
  unfold declined17, low_score_no_smet17, adverse_credit17, over_limit_exposure17,
    exposure17.
  cbn [with_credit17 Credit17.creditsafe_score Credit17.smet_compatible Credit17.has_ccjs
       Credit17.recommended_limit Credit17.contract_value Credit17.contract_term].
  intros [[Hlow Hsmet] | [Hccj | Hover]].
  - left. split; [lia | exact Hsmet].
  - right; left. exact Hccj.
  - right; right. eapply Qle_lt_trans; [|exact Hover].
    rewrite <- Zle_Qle. exact Hlimit.
Qed.

(** X17: on Credit17.py a higher credit score and a higher recommended
    limit never hurt: an application that was Approved stays Approved with
    the same approver, and carries no reason it did not carry before. *)
Theorem better_credit_never_hurts17 (limits_df : list Tier) (i : Credit17.Inputs)
  (score limit : Z) :
  Credit17.contract_term i <> 0 ->
  Credit17.creditsafe_score i <= score ->
  Credit17.recommended_limit i <= limit ->
  exists d a rs d' a' rs',
    Credit17.run_decision limits_df i = Return (d, a, rs)
    /\ Credit17.run_decision limits_df (with_credit17 i score limit) = Return (d', a', rs')
    /\ (d = "Approved" -> d' = "Approved" /\ a' = a /\ incl rs' rs).
Proof.
  intros Hterm Hscore Hlimit.
  set (j := with_credit17 i score limit).
  destruct (run_decision17_reasons limits_df i Hterm) as (d & a & Hrun & Hcase).
  destruct (run_decision17_reasons limits_df j Hterm) as (d' & a' & Hrun' & Hcase').
  exists d, a, (fired (reason_tests17 i)), d', a', (fired (reason_tests17 j)).
  split; [exact Hrun|]. split; [exact Hrun'|].
  intros Hd.
  destruct Hcase as [(-> & _) | (_ & -> & Hnot)]; [discriminate|].
  assert (~ declined17 j) as Hnot'
    by (intros H; apply Hnot; now apply (declined17_with_credit i score limit)).
  destruct Hcase' as [(_ & _ & H) | (-> & -> & _)]; [tauto|].
  split; [reflexivity|]. split; [reflexivity|].
  intros m.
  rewrite (reflects_In _ _ m (reason_tests17_reflects j)).
  rewrite (reflects_In _ _ m (reason_tests17_reflects i)).
  unfold reason_conditions17, referral_conditions17.
  cbn [map app fst snd]. rewrite !Exists_cons, !Exists_nil. cbn [fst snd].
  subst j.
  cbn [with_credit17 Credit17.creditsafe_score Credit17.smet_compatible
       Credit17.sic_risk Credit17.payment_terms Credit17.unit_margin
       Credit17.uplift_standing Credit17.uplift_unit Credit17.years_trading].
  intros H.
  destruct H as [[Hc He] | H]; [exfalso; apply Hnot'; now left|].
  destruct H as [[Hc He] | H]; [exfalso; apply Hnot'; right; now left|].
  destruct H as [[Hc He] | H]; [exfalso; apply Hnot'; right; now right|].
  destruct H as [[[Hc1 Hc2] He] | H];
    [do 3 right; left; split; [split; [lia | exact Hc2] | exact He]|].
  destruct H as [[[_ Hc] He] | H];
    [do 4 right; left; split; [split; [exact Hnot | lia] | exact He]|].
  do 5 right.
  repeat (destruct H as [[[_ Hc] He] | H]; [left; now repeat split | right]).
  exact H.
Qed.

Lemma better_credit_never_hurts17_witness :
  exists d a rs d' a' rs',
    Credit17.run_decision sample_matrix low_score_smet17 = Return (d, a, rs)
    /\ Credit17.run_decision sample_matrix (with_credit17 low_score_smet17 45 6000)
       = Return (d', a', rs')
    /\ d' = "Approved" /\ a' = a /\ incl rs' rs.
Proof.
  destruct (better_credit_never_hurts17 sample_matrix low_score_smet17 45 6000)
    as (d & a & rs & d' & a' & rs' & Hrun & Hrun' & Hbetter);
    [discriminate | discriminate | discriminate |].
  exists d, a, rs, d', a', rs'. split; [exact Hrun|]. split; [exact Hrun'|].
  apply Hbetter. injection Hrun as <- _ _. reflexivity.
Defined.

(** ** credit4.py: a higher score that hurts *)

(** X18: on credit4.py a higher score can turn an approval into a
    decline.  With a compatible meter and no referral check holding, a
    score below 30 (and below the referral threshold) is approved for Yu
    Energy only, with that approver, and any score from 30 up to the
    referral threshold is Declined with no approver. *)
Theorem higher_score_declines4 (now : string) (matrix_df : list Tier)
  (i : Credit4.Inputs) (score : Z) :
  Credit4.contract_term i <> 0 ->
  Credit4.smet_compatible i = "Yes" ->
  ~ referred_by_checks4 i ->
  Credit4.credit_score i < 30 ->
  30 <= score < Credit4.refer_threshold i ->
  exists r r',
    Credit4.run_decision now matrix_df i = Return r
    /\ Credit4.recommendation r = "Approved with Yu Energy Only"
    /\ Credit4.approver r = Some "Yu Energy Only"
    /\ Credit4.run_decision now matrix_df (with_score4 i score) = Return r'
    /\ Credit4.recommendation r' = "Declined"
    /\ Credit4.approver r' = None.
Proof.
  intros Hterm Hsmet Hnone Hlow Hscore.
  set (j := with_score4 i score).
  destruct (approver4_cases now matrix_df i Hterm) as (r & Hrun & Hcase).
  destruct (approver4_cases now matrix_df j Hterm) as (r' & Hrun' & Hcase').
  destruct (run_decision4_reasons now matrix_df i Hterm) as (r0 & Hrun0 & Hd & _).
  destruct (run_decision4_reasons now matrix_df j Hterm) as (r0' & Hrun0' & Hd' & _).
  rewrite Hrun in Hrun0. injection Hrun0 as <-.
  rewrite Hrun' in Hrun0'. injection Hrun0' as <-.
  assert (any_fired (referrals4 i) = false) as Hquiet.
  { apply not_true_iff_false. intros H. apply Hnone.
    now apply (reflects_any _ _ (referrals4_reflects i)). }
  assert (Credit4.recommendation r = "Approved with Yu Energy Only") as Hr.
  { rewrite Hd, referred4_decision, Hquiet.
    rewrite credit_checks4_restricted; [reflexivity | lia | exact Hlow | exact Hsmet]. }
  assert (Credit4.recommendation r' = "Declined") as Hr'.
  { rewrite Hd', referred4_decision.
    change (referrals4 j) with (referrals4 i). rewrite Hquiet.
    rewrite credit_checks4_declined; [reflexivity|].
    split; [apply Hscore|]. subst j. cbn [with_score4 Credit4.credit_score]. lia. }
  exists r, r'. split; [exact Hrun|]. split; [exact Hr|]. split.
  - destruct Hcase as [(H & _) | [(_ & H) | ([H | H] & _)]];
      [congruence | exact H | congruence | congruence].
  - split; [exact Hrun'|]. split; [exact Hr'|].
    destruct Hcase' as [(_ & H) | [(H & _) | ([H | H] & _)]];
      [exact H | congruence | congruence | congruence].
Qed.

Lemma higher_score_declines4_witness :
  exists r r',
    Credit4.run_decision "2025-07-01 09:00:00" sample_matrix low_score_smet4 = Return r
    /\ Credit4.recommendation r = "Approved with Yu Energy Only"
    /\ Credit4.approver r = Some "Yu Energy Only"
    /\ Credit4.run_decision "2025-07-01 09:00:00" sample_matrix
         (with_score4 low_score_smet4 45) = Return r'
    /\ Credit4.recommendation r' = "Declined"
    /\ Credit4.approver r' = None.
Proof.
  apply (higher_score_declines4 "2025-07-01 09:00:00" sample_matrix low_score_smet4 45).
  - discriminate.
  - reflexivity.
  - unfold referred_by_checks4. intros H.
    repeat (apply Exists_cons in H; destruct H as [H | H];
            [cbn [fst] in H; cbv in H; intuition discriminate|]).
    inversion H.
  - reflexivity.
  - split; [discriminate | reflexivity].
Defined.
